(** * multical: reprojection statistics, the Static motion model and the
      calibrated view model

    A shallow embedding of
      - [multical/interface/view_table.py]: [masked_quantile],
        [reprojection_statistics], [reprojection_tables],
        [ViewModelCalibrated.cell_color];
      - [multical/motion/static.py]: class [Static].

    Numbers are IEEE binary64 values (the kernel's primitive floats), so
    NaN, division and square root behave as numpy's float64 does.  numpy's
    [sum] is modelled by left-to-right accumulation over each slice; numpy
    groups long sums pairwise, which changes rounding only. *)

From Stdlib Require Import ZArith List Bool Lia Uint63 Floats.
From stdpp Require Import gmap strings list.

Set Default Proof Using "Type".
Set Warnings "-inexact-float".

(** ** Exceptions and fallible results *)

Inductive exn : Type :=
  | AxisError
  | IndexError
  | ValueError
  | TypeError
  | AttributeError
  | ZeroDivisionError
  | ShapeMismatch.

Inductive result (A : Type) : Type :=
  | Ok (a : A)
  | Raise (e : exn).
Arguments Ok {A} a.
Arguments Raise {A} e.

Definition rbind {A B} (r : result A) (k : A -> result B) : result B :=
  match r with
  | Ok a => k a
  | Raise e => Raise e
  end.

Notation "'let!' x ':=' r 'in' k" := (rbind r (fun x => k))
  (at level 10, x pattern, r at level 100, k at level 200).

Fixpoint rmapM {A B} (f : A -> result B) (l : list A) : result (list B) :=
  match l with
  | [] => Ok []
  | x :: l' =>
      let! y := f x in
      let! ys := rmapM f l' in
      Ok (y :: ys)
  end.

(** ** float64 *)

Module F64.

Definition zero : float := 0%float.
Definition one : float := 1%float.
Definition nan : float := PrimFloat.nan.

(** [math.isnan]: NaN is the one value different from itself. *)
Definition is_nan (x : float) : bool := negb (PrimFloat.eqb x x).

(** Conversion of a Python / numpy integer to float64. *)
Definition of_Z (z : Z) : float :=
  if (z <? 0)%Z
  then PrimFloat.opp (PrimFloat.of_uint63 (Uint63.of_Z (- z)))
  else PrimFloat.of_uint63 (Uint63.of_Z z).

Definition of_nat (n : nat) : float := of_Z (Z.of_nat n).

(** [floor] of a non-negative finite float, as a natural number
    (0 on negative values, NaN and infinities). *)
Definition floor_nat (x : float) : nat :=
  match Prim2SF x with
  | S754_finite false m e =>
      Z.to_nat (match e with
                | Z0 => Zpos m
                | Zpos p => Zpos m * 2 ^ Zpos p
                | Zneg p => Zpos m / 2 ^ Zpos p
                end)%Z
  | _ => 0%nat
  end.

Definition square (x : float) : float := PrimFloat.mul x x.

(** Left-to-right sum, starting from 0.0. *)
Definition sum (l : list float) : float := fold_left PrimFloat.add l zero.

End F64.

(** ** n-dimensional arrays

    An array is its shape and its elements in row-major (C) order, as
    numpy stores a contiguous array. *)

Record ndarray (A : Type) : Type := NDArray {
  shape : list nat;
  data : list A
}.
Arguments NDArray {A} shape data.
Arguments shape {A} _.
Arguments data {A} _.

Definition size_of (sh : list nat) : nat := fold_right Nat.mul 1%nat sh.

Definition ndim {A} (a : ndarray A) : nat := length (shape a).

(** The array holds exactly as many elements as its shape says. *)
Definition wf_array {A} (a : ndarray A) : Prop :=
  length (data a) = size_of (shape a).

(** The multi-index of flat position [k] in an array of shape [sh]. *)
Fixpoint unravel (sh : list nat) (k : nat) : list nat :=
  match sh with
  | [] => []
  | _ :: sh' => (k / size_of sh')%nat :: unravel sh' (k mod size_of sh')
  end.

(** Removes, from a list indexed by axis number (starting at [i]), the
    entries of the reduced axes. *)
Fixpoint drop_axes {X} (axes : list nat) (i : nat) (xs : list X) : list X :=
  match xs with
  | [] => []
  | x :: xs' =>
      if existsb (Nat.eqb i) axes
      then drop_axes axes (S i) xs'
      else x :: drop_axes axes (S i) xs'
  end.

(** Does flat position [k] of an array of shape [sh] belong to the slice
    of output position [j], when the axes [axes] are reduced? *)
Definition in_slice (axes : list nat) (sh : list nat) (j k : nat) : bool :=
  bool_decide (drop_axes axes 0 (unravel sh k)
               = unravel (drop_axes axes 0 sh) j).

(** The elements of [l] whose flat position, counted from [i], satisfies
    [P], in storage order. *)
Fixpoint select_from {A} (P : nat -> bool) (i : nat) (l : list A) : list A :=
  match l with
  | [] => []
  | x :: l' =>
      if P i then x :: select_from P (S i) l' else select_from P (S i) l'
  end.

(** The elements of the slice of output position [j], in storage order. *)
Definition slice {A} (axes : list nat) (a : ndarray A) (j : nat) : list A :=
  select_from (in_slice axes (shape a) j) 0 (data a).

(** One slice per output position, in row-major order of the output. *)
Definition slices {A} (axes : list nat) (a : ndarray A) : list (list A) :=
  slice axes a <$> seq 0 (size_of (drop_axes axes 0 (shape a))).

(** The [axis] argument of a numpy reduction: [None] reduces every axis,
    an int [k] is [Some [k]], a tuple is the list of its entries. *)
Definition axis_arg : Type := option (list nat).

Definition resolve_axes (axis : axis_arg) (nd : nat) : result (list nat) :=
  match axis with
  | None => Ok (seq 0 nd)
  | Some axes =>
      if negb (forallb (fun i => i <? nd)%nat axes) then Raise AxisError
      else if negb (bool_decide (NoDup axes)) then Raise ValueError
      else Ok axes
  end.

(** A numpy reduction: [f] applied to every slice along [axis]. *)
Definition reduce {A B} (f : list A -> B) (axis : axis_arg) (a : ndarray A)
  : result (ndarray B) :=
  let! axes := resolve_axes axis (ndim a) in
  Ok (NDArray (drop_axes axes 0 (shape a)) (f <$> slices axes a)).

(** Element-wise unary operation. *)
Definition np_map {A B} (f : A -> B) (a : ndarray A) : ndarray B :=
  NDArray (shape a) (f <$> data a).

(** Element-wise binary operation on arrays of one shape.  numpy
    broadcasts operands of compatible shapes; the arrays the source
    combines all have the shape of the point table, so broadcasting is
    not modelled and operands of different shapes raise [ValueError]. *)
Definition np_zip {A B C} (f : A -> B -> C) (a : ndarray A) (b : ndarray B)
  : result (ndarray C) :=
  if bool_decide (shape a = shape b)
  then Ok (NDArray (shape a) (zip_with f (data a) (data b)))
  else Raise ValueError.

(** Boolean-mask assignment [a[mask] = v]: numpy raises [IndexError] when
    the mask's shape does not match the array's. *)
Definition setitem_mask {A} (a : ndarray A) (mask : ndarray bool) (v : A)
  : result (ndarray A) :=
  if bool_decide (shape mask = shape a)
  then Ok (NDArray (shape a)
             (zip_with (fun x (m : bool) => if m then v else x)
                       (data a) (data mask)))
  else Raise IndexError.

(** ** The numpy functions the source calls *)

Module Np.

(** [ndarray.sum] of a boolean array: the number of [True] entries of
    each slice, an integer. *)
Definition count_sum (l : list bool) : Z :=
  fold_left Z.add (Z.b2z <$> l) 0%Z.

Definition sum_bool (a : ndarray bool) (axis : axis_arg)
  : result (ndarray Z) :=
  reduce count_sum axis a.

Definition sum (a : ndarray float) (axis : axis_arg)
  : result (ndarray float) :=
  reduce F64.sum axis a.

Definition square (a : ndarray float) : ndarray float :=
  np_map F64.square a.

Definition sqrt (a : ndarray float) : ndarray float :=
  np_map PrimFloat.sqrt a.

(** [np.maximum(a, k)] with an integer scalar [k]. *)
Definition maximum (a : ndarray Z) (k : Z) : ndarray Z :=
  np_map (fun n => Z.max n k) a.

(** [a / b] for a float array and an integer array: true division. *)
Definition true_divide (a : ndarray float) (b : ndarray Z)
  : result (ndarray float) :=
  np_zip (fun x n => PrimFloat.div x (F64.of_Z n)) a b.

(** [~a] on a boolean array. *)
Definition invert (a : ndarray bool) : ndarray bool := np_map negb a.

(** [a & b] on boolean arrays. *)
Definition bitwise_and (a b : ndarray bool) : result (ndarray bool) :=
  np_zip andb a b.

(** Insertion sort by [<=]; numpy partitions instead, with the same
    order statistics. *)
Fixpoint insert_sorted (x : float) (l : list float) : list float :=
  match l with
  | [] => [x]
  | y :: l' =>
      if PrimFloat.leb x y then x :: l else y :: insert_sorted x l'
  end.

Definition sort (l : list float) : list float :=
  fold_right insert_sorted [] l.

(** numpy's linear interpolation between neighbouring order
    statistics. *)
Definition lerp (a b t : float) : float :=
  let diff := PrimFloat.sub b a in
  if PrimFloat.leb 0.5%float t
  then PrimFloat.sub b (PrimFloat.mul diff (PrimFloat.sub 1%float t))
  else PrimFloat.add a (PrimFloat.mul diff t).

(** The [q]-quantile (method "linear", the default) of the values [l],
    none of which is NaN; NaN when there is no value. *)
Definition quantile_1d (q : float) (l : list float) : float :=
  match l with
  | [] => F64.nan
  | _ =>
      let s := sort l in
      let n := length s in
      let virtual := PrimFloat.mul q (F64.of_nat (n - 1)) in
      let previous := F64.floor_nat virtual in
      let next := Nat.min (previous + 1) (n - 1) in
      let gamma := PrimFloat.sub virtual (F64.of_nat previous) in
      lerp (nth previous s F64.nan) (nth next s F64.nan) gamma
  end.

(** [np.nanquantile] on one slice: NaN entries are dropped first; an
    all-NaN slice yields NaN (numpy warns, it does not raise). *)
Definition nanquantile_1d (q : float) (l : list float) : float :=
  quantile_1d q (List.filter (fun x => negb (F64.is_nan x)) l).

Definition quantile_is_valid (q : float) : bool :=
  PrimFloat.leb 0%float q && PrimFloat.leb q 1%float.

(** [np.nanquantile(a, qs, axis=axis)] for a list [qs]: one result
    array per quantile (the leading axis of numpy's result). *)
Definition nanquantile (a : ndarray float) (qs : list float)
    (axis : axis_arg) : result (list (ndarray float)) :=
  if forallb quantile_is_valid qs
  then rmapM (fun q => reduce (nanquantile_1d q) axis a) qs
  else Raise ValueError.

End Np.

(** ** Statistics tables *)

Module StatsTable.
Record t : Type := create_fields {
  detected : ndarray Z;
  outliers : ndarray Z;
  mse : ndarray float;
  rms : ndarray float;
  min : ndarray float;
  lower_q : ndarray float;
  median : ndarray float;
  upper_q : ndarray float;
  max : ndarray float
}.

(** Modelled from the spec: [Table.create] of the library [structs],
    which is not part of the repository: it builds the table when all
    fields have the same leading shape and fails with [ShapeMismatch]
    otherwise. *)
Definition create (detected outliers : ndarray Z)
    (mse rms min lower_q median upper_q max : ndarray float) : result t :=
  let sh := shape detected in
  if bool_decide (Forall (eq sh)
       [shape outliers; shape mse; shape rms; shape min; shape lower_q;
        shape median; shape upper_q; shape max])
  then Ok (create_fields detected outliers mse rms min lower_q median
             upper_q max)
  else Raise ShapeMismatch.
End StatsTable.

(** ** view_table.py *)

(** [masked_quantile(error, mask, quantiles, axis=None)], on array
    values: [error.copy()] is a new array with the same contents, which
    the assignment then fills with NaN where [mask] is false. *)
Definition masked_quantile (error : ndarray float) (mask : ndarray bool)
    (quantiles : list float) (axis : axis_arg)
  : result (list (ndarray float)) :=
  let error := error in
  let! error := setitem_mask error (Np.invert mask) F64.nan in
  Np.nanquantile error quantiles axis.

Definition five_quantiles : list float :=
  [0%float; 0.25%float; 0.5%float; 0.75%float; 1%float].

(** [reprojection_statistics(error, valid, inlier, axis=None)]. *)
Definition reprojection_statistics (error : ndarray float)
    (valid inlier : ndarray bool) (axis : axis_arg)
  : result StatsTable.t :=
  let! n := Np.sum_bool valid axis in
  let! sq := Np.sum (Np.square error) axis in
  let! mse := Np.true_divide sq (Np.maximum n 1) in
  let! vo := Np.bitwise_and valid (Np.invert inlier) in
  let! outliers := Np.sum_bool vo axis in
  let! quantiles := masked_quantile error valid five_quantiles axis in
  match quantiles with
  | [min; lq; median; uq; max] =>
      StatsTable.create n outliers mse (Np.sqrt mse)
        min lq median uq max
  | _ => Raise ValueError
  end.

(** ** The same functions over a store of mutable objects

    numpy arrays and tables are Python objects that callers share by
    reference.  Arrays that a function receives, or writes in place, live
    in the store and are named by their location; the result of a numpy
    expression is a new object that only the caller holds, and is bound as
    a value. *)

Module Store.

Definition loc : Type := positive.

Inductive obj : Type :=
  | FloatArray (a : ndarray float)
  | BoolArray (a : ndarray bool)
  | Table (fields : gmap string loc).

Abbreviation heap := (gmap loc obj).

(** A computation reads and writes the store and may raise; the store
    it leaves behind is kept on both outcomes. *)
Definition M (A : Type) : Type := heap -> result A * heap.

Definition ret {A} (a : A) : M A := fun h => (Ok a, h).

Definition bind {A B} (m : M A) (k : A -> M B) : M B :=
  fun h =>
    match m h with
    | (Ok a, h') => k a h'
    | (Raise e, h') => (Raise e, h')
    end.

Definition lift {A} (r : result A) : M A := fun h => (r, h).

Notation "x <- m ;; k" := (bind m (fun x => k))
  (at level 100, m at next level, right associativity).
Notation "m ;;; k" := (bind m (fun _ => k))
  (at level 100, right associativity).

(** A new object at a location the store does not use yet. *)
Definition alloc (o : obj) : M loc :=
  fun h => let l := fresh (dom h) in (Ok l, <[l := o]> h).

(** In-place replacement of the contents of an existing object. *)
Definition store (l : loc) (o : obj) : M unit :=
  fun h =>
    match h !! l with
    | Some _ => (Ok tt, <[l := o]> h)
    | None => (Raise AttributeError, h)
    end.

Definition load_float (l : loc) : M (ndarray float) :=
  fun h =>
    match h !! l with
    | Some (FloatArray a) => (Ok a, h)
    | _ => (Raise AttributeError, h)
    end.

Definition load_bool (l : loc) : M (ndarray bool) :=
  fun h =>
    match h !! l with
    | Some (BoolArray a) => (Ok a, h)
    | _ => (Raise AttributeError, h)
    end.

Definition load_table (l : loc) : M (gmap string loc) :=
  fun h =>
    match h !! l with
    | Some (Table fs) => (Ok fs, h)
    | _ => (Raise AttributeError, h)
    end.

(** [table.name]. *)
Definition getattr (l : loc) (name : string) : M loc :=
  fs <- load_table l ;;
  match fs !! name with
  | Some l' => ret l'
  | None => lift (Raise AttributeError)
  end.

(** [a.copy()]: a new array object with the contents of [a]. *)
Definition copy (l : loc) : M loc :=
  a <- load_float l ;;
  alloc (FloatArray a).

(** [a[mask] = v], writing into the object [l] itself. *)
Definition setitem (l : loc) (mask : ndarray bool) (v : float) : M unit :=
  a <- load_float l ;;
  a' <- lift (setitem_mask a mask v) ;;
  store l (FloatArray a').

(** [masked_quantile(error, mask, quantiles, axis=None)]. *)
Definition masked_quantile (error mask : loc) (quantiles : list float)
    (axis : axis_arg) : M (list (ndarray float)) :=
  error <- copy error ;;
  m <- load_bool mask ;;
  setitem error (Np.invert m) F64.nan ;;;
  e <- load_float error ;;
  lift (Np.nanquantile e quantiles axis).

(** [reprojection_statistics(error, valid, inlier, axis=None)]. *)
Definition reprojection_statistics (error valid inlier : loc)
    (axis : axis_arg) : M StatsTable.t :=
  v <- load_bool valid ;;
  n <- lift (Np.sum_bool v axis) ;;
  e <- load_float error ;;
  sq <- lift (Np.sum (Np.square e) axis) ;;
  mse <- lift (Np.true_divide sq (Np.maximum n 1)) ;;
  i <- load_bool inlier ;;
  vo <- lift (Np.bitwise_and v (Np.invert i)) ;;
  outliers <- lift (Np.sum_bool vo axis) ;;
  quantiles <- masked_quantile error valid five_quantiles axis ;;
  match quantiles with
  | [min; lq; median; uq; max] =>
      lift (StatsTable.create n outliers mse (Np.sqrt mse)
              min lq median uq max)
  | _ => lift (Raise ValueError)
  end.

(** Modelled from the spec: [Table._extend] of the library [structs]
    (not part of the repository): "returns a new Table with additional
    fields sharing the same shape".  The receiver is left as it is; a
    field of the same name is replaced in the new table. *)
Definition Table_extend (table : loc) (name : string) (field : loc)
  : M loc :=
  fs <- load_table table ;;
  alloc (Table (<[name := field]> fs)).

(** The Euclidean norm of each row of the last axis. *)
Definition norm_last (a : ndarray float) : result (ndarray float) :=
  reduce (fun l => PrimFloat.sqrt (F64.sum (F64.square <$> l)))
         (Some [(ndim a - 1)%nat]) a.

(** Modelled from the spec: [tables.reprojection_error] (module
    [multical.tables] is not among the sources): "elementwise Euclidean
    distance between projected and detected point tables, combined with
    a validity mask that is the logical AND of both tables' per-point
    validity".  Both results are new arrays. *)
Definition reprojection_error (projected detected : loc) : M (loc * loc) :=
  p1 <- getattr projected "points" ;;
  p1 <- load_float p1 ;;
  v1 <- getattr projected "valid" ;;
  v1 <- load_bool v1 ;;
  p2 <- getattr detected "points" ;;
  p2 <- load_float p2 ;;
  v2 <- getattr detected "valid_points" ;;
  v2 <- load_bool v2 ;;
  diff <- lift (np_zip PrimFloat.sub p1 p2) ;;
  error <- lift (norm_last diff) ;;
  valid <- lift (np_zip andb v1 v2) ;;
  error <- alloc (FloatArray error) ;;
  valid <- alloc (BoolArray valid) ;;
  ret (error, valid).

(** The attributes of [calib] that [reprojection_tables] reads. *)
Record Calibration : Type := {
  point_table : loc;
  projected : loc;
  inliers : loc
}.

(** The four granularities, [struct(overall=None, views=2,
    cameras=(1, 2), frames=(0, 2))], mapped in this order. *)
Record Tables : Type := {
  overall : StatsTable.t;
  views : StatsTable.t;
  cameras : StatsTable.t;
  frames : StatsTable.t
}.

(** [reprojection_tables(calib, inlier_only=False)]. *)
Definition reprojection_tables (calib : Calibration) (inlier_only : bool)
  : M Tables :=
  let point_table := point_table calib in
  point_table <-
    (if inlier_only
     then Table_extend point_table "valid_points" (inliers calib)
     else ret point_table) ;;
  error_valid <- reprojection_error (projected calib) point_table ;;
  let '(error, valid) := error_valid in
  let f axis := reprojection_statistics error valid (inliers calib) axis in
  overall <- f None ;;
  views <- f (Some [2%nat]) ;;
  cameras <- f (Some [1%nat; 2%nat]) ;;
  frames <- f (Some [0%nat; 2%nat]) ;;
  ret {| overall := overall; views := views;
         cameras := cameras; frames := frames |}.

End Store.

(** ** motion/static.py

    Python values are dynamically typed: a method receives its arguments
    as a list of values, fails with [TypeError] when their number is not
    the one its signature asks for, and returns [None] when its body ends
    without a [return]. *)

Section StaticModel.

(** A camera model, with its method [camera.project(points)]; cameras
    are defined outside the sources. *)
Variable Camera : Type.

#[local] Unset Elimination Schemes.
Inductive pyval : Type :=
  | PyNone
  | PyArray (a : ndarray float)
  | PyBoolArray (a : ndarray bool)
  | PyCam (c : Camera)
  | PyList (l : list pyval)
  | PyTable (fields : list (string * pyval))
  | PyStatic (dict : list (string * pyval)).
#[local] Set Elimination Schemes.

Variable camera_project : Camera -> pyval -> result pyval.

(** [tables.expand_views] and [tables.transform_points]: module
    [multical.tables] is not among the sources. *)
Variable tables_expand_views : pyval -> pyval -> result pyval.
Variable tables_transform_points : pyval -> pyval -> result pyval.

Fixpoint assoc (name : string) (d : list (string * pyval)) : option pyval :=
  match d with
  | [] => None
  | (k, v) :: d' => if String.eqb k name then Some v else assoc name d'
  end.

(** Attribute lookup [o.name] on the data attributes of an object. *)
Definition getattr (o : pyval) (name : string) : result pyval :=
  match o with
  | PyTable d | PyStatic d =>
      match assoc name d with
      | Some v => Ok v
      | None => Raise AttributeError
      end
  | _ => Raise AttributeError
  end.

(** Splits a flat list into consecutive chunks of [n] elements. *)
Fixpoint chunks {A} (count n : nat) (l : list A) : list (list A) :=
  match count with
  | O => []
  | S count' => firstn n l :: chunks count' n (skipn n l)
  end.

(** Iteration over a value: a list yields its items, an array its
    sub-arrays along the first axis. *)
Definition iter (v : pyval) : result (list pyval) :=
  match v with
  | PyList l => Ok l
  | PyArray (NDArray (d :: sh) xs) =>
      Ok ((fun c => PyArray (NDArray sh c)) <$> chunks d (size_of sh) xs)
  | PyBoolArray (NDArray (d :: sh) xs) =>
      Ok ((fun c => PyBoolArray (NDArray sh c)) <$> chunks d (size_of sh) xs)
  | _ => Raise TypeError
  end.

(** [np.stack]: the arrays, all of one shape, along a new first axis. *)
Definition np_stack (l : list pyval) : result pyval :=
  match l with
  | PyArray a :: _ =>
      let! arrays :=
        rmapM (fun v => match v with
                        | PyArray b =>
                            if bool_decide (shape b = shape a)
                            then Ok b else Raise ValueError
                        | _ => Raise ValueError
                        end) l in
      Ok (PyArray (NDArray (length l :: shape a)
                     (concat (data <$> arrays))))
  | _ => Raise ValueError
  end.

Definition leading_dim (v : pyval) : option nat :=
  match v with
  | PyArray a => head (shape a)
  | PyBoolArray a => head (shape a)
  | _ => None
  end.

(** Modelled from the spec: [Table.create] of the library [structs]:
    "builds a Table from same-leading-shape arrays; fails with
    ShapeMismatch if any field's leading dimensions disagree". *)
Definition Table_create (fields : list (string * pyval)) : result pyval :=
  match fields with
  | [] => Raise ShapeMismatch
  | (_, v) :: _ =>
      match leading_dim v with
      | None => Raise ShapeMismatch
      | Some d =>
          if forallb (fun kv => bool_decide (leading_dim kv.2 = Some d))
                     fields
          then Ok (PyTable fields)
          else Raise ShapeMismatch
      end
  end.

(** [Static.__init__(self, poses)]: the new instance has the one
    attribute [poses].  The base class [Parameters] is not among the
    sources; it is taken to give its instances no data attribute. *)
Definition Static_init (poses : pyval) : pyval :=
  PyStatic [("poses", poses)].

(** [Static.reproject(self, cameras, camera_poses, world_points,
    detected)]. *)
Definition Static_reproject (self : pyval) (args : list pyval)
  : result pyval :=
  match args with
  | [cameras; camera_poses; world_points; detected] =>
      let! self_poses := getattr self "poses" in
      let! view_table := tables_expand_views camera_poses self_poses in
      let! transformed :=
        tables_transform_points world_points view_table in
      let! self_cameras := getattr self "cameras" in
      let! transformed_points := getattr transformed "points" in
      let! self_cameras := iter self_cameras in
      let! transformed_points := iter transformed_points in
      let! image_points :=
        rmapM (fun cp =>
                 match cp.1 with
                 | PyCam camera => camera_project camera cp.2
                 | _ => Raise AttributeError
                 end)
              (zip self_cameras transformed_points) in
      let! points := np_stack image_points in
      let! valid := getattr transformed "valid" in
      Table_create [("points", points); ("valid", valid)]
  | _ => Raise TypeError
  end.

(** [Static.project(self, cameras, camera_poses, world_points)]: the
    body calls [self.reproject] with these three arguments. *)
Definition Static_project (self : pyval) (args : list pyval)
  : result pyval :=
  match args with
  | [cameras; camera_poses; world_points] =>
      Static_reproject self [cameras; camera_poses; world_points]
  | _ => Raise TypeError
  end.

(** [Static.params(self)]: the body is [pass]. *)
Definition Static_params (self : pyval) (args : list pyval)
  : result pyval :=
  match args with
  | [] => Ok PyNone
  | _ => Raise TypeError
  end.

(** [Static.with_params(self, params)]: the body is [pass]. *)
Definition Static_with_params (self : pyval) (args : list pyval)
  : result pyval :=
  match args with
  | [params] => Ok PyNone
  | _ => Raise TypeError
  end.

(** [Static.sparsity(self, index_table)]: the body is [pass]. *)
Definition Static_sparsity (self : pyval) (args : list pyval)
  : result pyval :=
  match args with
  | [index_table] => Ok PyNone
  | _ => Raise TypeError
  end.

(** The method call [o.name(args)]: only instances of [Static] have
    the methods of the class; on any other value, [None] included, the
    attribute lookup fails. *)
Definition call_method (o : pyval) (name : string) (args : list pyval)
  : result pyval :=
  match o with
  | PyStatic _ =>
      if String.eqb name "project" then Static_project o args
      else if String.eqb name "reproject" then Static_reproject o args
      else if String.eqb name "params" then Static_params o args
      else if String.eqb name "with_params" then Static_with_params o args
      else if String.eqb name "sparsity" then Static_sparsity o args
      else Raise AttributeError
  | _ => Raise AttributeError
  end.

(** The round trip [model.with_params(x).params()]. *)
Definition round_trip (model x : pyval) : result pyval :=
  let! model' := call_method model "with_params" [x] in
  call_method model' "params" [].

End StaticModel.

Arguments PyNone {Camera}.
Arguments PyArray {Camera} a.
Arguments PyBoolArray {Camera} a.
Arguments PyCam {Camera} c.
Arguments PyList {Camera} l.
Arguments PyTable {Camera} fields.
Arguments PyStatic {Camera} dict.
Arguments Static_init {Camera} poses.
Arguments Static_params {Camera} self args.
Arguments Static_with_params {Camera} self args.
Arguments Static_sparsity {Camera} self args.
Arguments getattr {Camera} o name.

(** ** ViewModelCalibrated.cell_color *)

(** A [colour.Color], held as its hue, saturation and luminance. *)
Record Color : Type := {
  hue : float;
  saturation : float;
  luminance : float
}.

(** The cell of a statistics table that [cell_color] reads. *)
Record ViewStats : Type := {
  detected : Z;
  outliers : Z
}.

(** The attributes of the view model that [cell_color] reads:
    [self.calib.board.num_points], [self.colors.inliers] and
    [self.colors.outliers]. *)
Record ViewModelCalibrated : Type := {
  num_points : Z;
  colors_inliers : Color;
  colors_outliers : Color
}.

(** [a / b] on integers.  Python raises [ZeroDivisionError] on a zero
    divisor (numpy integers warn and yield inf or NaN instead); the
    raising reading is the one modelled, so that a division by zero
    cannot go unnoticed. *)
Definition truediv (a b : Z) : result float :=
  if (b =? 0)%Z then Raise ZeroDivisionError
  else Ok (PrimFloat.div (F64.of_Z a) (F64.of_Z b)).

(** The builtins [min(a, b)] and [max(a, b)]: the first argument, unless
    the second is strictly smaller (resp. larger). *)
Definition py_min (a b : float) : float :=
  if PrimFloat.ltb b a then b else a.

Definition py_max (a b : float) : float :=
  if PrimFloat.ltb a b then b else a.

Definition py_max_int (a b : Z) : Z :=
  if (a <? b)%Z then b else a.

(** [interpolate_hsl(t, color1, color2)]. *)
Definition interpolate_hsl (t : float) (color1 color2 : Color) : Color :=
  let mix x1 x2 :=
    PrimFloat.add (PrimFloat.mul x2 t)
                  (PrimFloat.mul x1 (PrimFloat.sub 1%float t)) in
  {| hue := mix (hue color1) (hue color2);
     saturation := mix (saturation color1) (saturation color2);
     luminance := mix (luminance color1) (luminance color2) |}.

Definition set_luminance (c : Color) (l : float) : Color :=
  {| hue := hue c; saturation := saturation c; luminance := l |}.

(** [ViewModelCalibrated.cell_color(self, view_stats)]. *)
Definition cell_color (self : ViewModelCalibrated) (view_stats : ViewStats)
  : result Color :=
  let! rate := truediv (detected view_stats) (num_points self) in
  let detection_rate := py_min rate 1%float in
  let! outlier_rate :=
    truediv (outliers view_stats) (py_max_int (detected view_stats) 1) in
  let outlier_t := py_min (PrimFloat.mul outlier_rate 5%float) 1%float in
  let color :=
    interpolate_hsl outlier_t (colors_inliers self) (colors_outliers self) in
  Ok (set_luminance color
        (py_max (PrimFloat.sub 1%float detection_rate) 0.7%float)).

(** ** Vocabulary of the statements *)

(** The number of [True] entries of a slice. *)
Definition count_true (l : list bool) : Z :=
  Z.of_nat (length (List.filter (fun b : bool => b) l)).

(** The number of points of a slice of (valid, inlier) pairs that are
    valid and not inliers. *)
Definition count_outliers (l : list (bool * bool)) : Z :=
  Z.of_nat (length (List.filter (fun vi : bool * bool => vi.1 && negb vi.2) l)).

(** The array of the pairs of entries of two arrays of one shape. *)
Definition np_pair {A B} (a : ndarray A) (b : ndarray B) : ndarray (A * B) :=
  NDArray (shape a) (zip (data a) (data b)).

(** The entries of [xs] at the positions where [mask] is true. *)
Fixpoint masked_values {A} (xs : list A) (mask : list bool) : list A :=
  match xs, mask with
  | x :: xs', m :: mask' =>
      if m then x :: masked_values xs' mask' else masked_values xs' mask'
  | _, _ => []
  end.

(** The mean squared error of a slice in the words of the specification:
    the squared error summed over the valid points only, divided by
    [max(count, 1)]. *)
Definition mse_valid_only (error : list float) (valid : list bool) : float :=
  PrimFloat.div (F64.sum (F64.square <$> masked_values error valid))
                (F64.of_Z (Z.max (count_true valid) 1)).

(** The mean squared error of a slice as the code computes it: the
    squared error summed over every point of the slice, divided by
    [max(count, 1)]. *)
Definition mse_all_points (error : list float) (valid : list bool) : float :=
  PrimFloat.div (F64.sum (F64.square <$> error))
                (F64.of_Z (Z.max (count_true valid) 1)).

(** The quantile of the entries of a slice that are selected by the mask
    (and are not NaN themselves). *)
Definition quantile_of_masked (q : float) (error : list float)
    (mask : list bool) : float :=
  Np.nanquantile_1d q (masked_values error mask).

(** The array [masked_quantile] hands to [np.nanquantile]: the copy of
    [error] with NaN at the masked-out positions. *)
Definition nan_filled (error : ndarray float) (mask : ndarray bool)
  : ndarray float :=
  NDArray (shape error)
    (zip_with (fun x (m : bool) => if m then F64.nan else x)
              (data error) (negb <$> data mask)).

(** A computation leaves every object that exists before it as it is. *)
Definition preserves_store {A} (m : Store.M A) : Prop :=
  forall h : gmap Store.loc Store.obj, h ⊆ (m h).2.

(** ** Sample inputs *)

(** One view of two points, the second one undetected. *)
Definition error_3_4 : ndarray float := NDArray [2%nat] [3%float; 4%float].
Definition valid_1_0 : ndarray bool := NDArray [2%nat] [true; false].
Definition inlier_1_1 : ndarray bool := NDArray [2%nat] [true; true].


(** One view of ten points, all detected, two of which are not
    inliers. *)
Definition error_10 : ndarray float :=
  NDArray [1; 1; 10]%nat (replicate 10 1%float).
Definition valid_10 : ndarray bool :=
  NDArray [1; 1; 10]%nat (replicate 10 true).
Definition inlier_8_of_10 : ndarray bool :=
  NDArray [1; 1; 10]%nat
    [true; true; false; true; true; true; true; false; true; true].

(** Four errors, the third of which (100) is masked out. *)
Definition error_1_2_100_3 : ndarray float :=
  NDArray [4%nat] [1%float; 2%float; 100%float; 3%float].
Definition mask_1_1_0_1 : ndarray bool :=
  NDArray [4%nat] [true; true; false; true].

(** A 2 x 3 array. *)
Definition array_2x3 : ndarray Z :=
  NDArray [2; 3]%nat [1; 2; 3; 4; 5; 6]%Z.

(** A store with a projected table (objects 1 to 3), a detected point
    table (4 to 6) and an inlier mask (7), for one view of two points. *)
Definition sample_heap : gmap Store.loc Store.obj :=
  <[1%positive :=
      Store.FloatArray (NDArray [1; 1; 2; 2]%nat
                          [1%float; 2%float; 3%float; 4%float])]>
  (<[2%positive := Store.BoolArray (NDArray [1; 1; 2]%nat [true; false])]>
  (<[3%positive :=
       Store.Table (<["points" := 1%positive]>
                      (<["valid" := 2%positive]> ∅))]>
  (<[4%positive :=
       Store.FloatArray (NDArray [1; 1; 2; 2]%nat
                           [1%float; 5%float; 0%float; 0%float])]>
  (<[5%positive := Store.BoolArray (NDArray [1; 1; 2]%nat [true; true])]>
  (<[6%positive :=
       Store.Table (<["points" := 4%positive]>
                      (<["valid_points" := 5%positive]> ∅))]>
  (<[7%positive := Store.BoolArray (NDArray [1; 1; 2]%nat [false; true])]>
     ∅)))))).

Definition sample_calib : Store.Calibration :=
  {| Store.point_table := 6%positive;
     Store.projected := 3%positive;
     Store.inliers := 7%positive |}.

(** A store with an error array and its mask. *)
Definition error_heap : gmap Store.loc Store.obj :=
  <[1%positive := Store.FloatArray error_1_2_100_3]>
  (<[2%positive := Store.BoolArray mask_1_1_0_1]> ∅).

(** A view model for a board of four points, with the colours of the
    source: green (hue 1/3) for inliers, red (hue 0) for outliers. *)
Definition sample_view_model : ViewModelCalibrated :=
  {| num_points := 4;
     colors_inliers :=
       {| hue := PrimFloat.div 1%float 3%float; saturation := 1%float;
          luminance := 0.5%float |};
     colors_outliers :=
       {| hue := 0%float; saturation := 1%float; luminance := 0.5%float |} |}.

(** Stand-ins for a run of [Static.reproject]: the table that
    [tables.transform_points] returns for one camera, one frame and one
    valid point; a detected table that marks this point undetected; an
    instance of [Static] that was given a [cameras] attribute. *)
Definition sample_transformed : pyval unit :=
  PyTable [("points", PyArray (NDArray [1; 1; 2]%nat [1%float; 2%float]));
           ("valid", PyBoolArray (NDArray [1; 1]%nat [true]))].
Definition sample_detected : pyval unit :=
  PyTable [("points", PyArray (NDArray [1; 1; 2]%nat [7%float; 7%float]));
           ("valid_points", PyBoolArray (NDArray [1; 1]%nat [false]))].
Definition sample_static : pyval unit :=
  PyStatic [("poses", PyNone); ("cameras", PyList [PyCam tt])].

(** ** Further functions of view_table.py *)

(** The sum of a list of integers. *)
Definition total (l : list Z) : Z := foldr Z.add 0%Z l.

(** The five tables of [detection_tables]. *)
Module DetectionTables.
Record t : Type := {
  overall : ndarray Z;
  views : ndarray Z;
  cameras : ndarray Z;
  frames : ndarray Z;
  boards : ndarray Z
}.
End DetectionTables.

(** [detection_tables(point_table)]; of the point table the function
    reads the field [valid_points] only, which stands for it here.  The
    axes are [struct(overall=None, views=(2, 3), cameras=(1, 2, 3),
    frames=(0, 2, 3), boards=(0, 1, 3))], mapped in this order. *)
Definition detection_tables (valid_points : ndarray bool)
  : result DetectionTables.t :=
  let valid := valid_points in
  let f axis := Np.sum_bool valid axis in
  let! overall := f None in
  let! views := f (Some [2; 3]%nat) in
  let! cameras := f (Some [1; 2; 3]%nat) in
  let! frames := f (Some [0; 2; 3]%nat) in
  let! boards := f (Some [0; 1; 3]%nat) in
  Ok {| DetectionTables.overall := overall;
        DetectionTables.views := views;
        DetectionTables.cameras := cameras;
        DetectionTables.frames := frames;
        DetectionTables.boards := boards |}.

(** The number of [True] entries of each slice of [valid] along
    [axes], as an array over the axes that are kept. *)
Definition counts_along (axes : list nat) (valid : ndarray bool)
  : ndarray Z :=
  NDArray (drop_axes axes 0 (shape valid)) (count_true <$> slices axes valid).

(** The integer and the float fields of a statistics table. *)
Definition count_fields (t : StatsTable.t) : list (ndarray Z) :=
  [StatsTable.detected t; StatsTable.outliers t].

Definition error_fields (t : StatsTable.t) : list (ndarray float) :=
  [StatsTable.mse t; StatsTable.rms t; StatsTable.min t;
   StatsTable.lower_q t; StatsTable.median t; StatsTable.upper_q t;
   StatsTable.max t].

(** A 2 x 2 x 1 x 2 mask of detections (cameras, frames, boards,
    points). *)
Definition valid_2x2x1x2 : ndarray bool :=
  NDArray [2; 2; 1; 2]%nat
    [true; false; true; true; false; false; true; false].

(** ** The table models of view_table.py: [set_metric] and the colour of
    [ViewModelDetections] *)

Module ViewModel.

(** The exceptions of this part of the code. *)
Inductive error : Type :=
  | AssertionError
  | IndexError.

Inductive outcome (A : Type) : Type :=
  | Done (a : A)
  | Failed (e : error).
Arguments Done {A} a.
Arguments Failed {A} e.

(** The argument [metric] of [set_metric]: a string, an integer, or a
    value of another type. *)
Inductive metric_arg : Type :=
  | Name (s : string)
  | Index (i : Z)
  | Other.

(** The attributes [set_metric] reads and writes, in both
    [ViewModelCalibrated] and [ViewModelDetections]: the dict [metrics]
    (keys in insertion order, with their labels), the current [metric],
    the flag [inlier_only], and the number of times [modelReset] was
    emitted. *)
Record state : Type := {
  metrics : list (string * string);
  metric : string;
  inlier_only : bool;
  resets : nat
}.

(** [list(self.metrics.keys())] and [metric_labels]. *)
Definition keys (self : state) : list string := (metrics self).*1.
Definition metric_labels (self : state) : list string := (metrics self).*2.

(** [self.metrics[name]]. *)
Fixpoint lookup_label (d : list (string * string)) (name : string)
  : option string :=
  match d with
  | [] => None
  | (k, v) :: d' => if String.eqb k name then Some v else lookup_label d' name
  end.

(** [l[i]] on a Python list: a negative index counts from the end. *)
Definition getitem {A} (l : list A) (i : Z) : outcome A :=
  let n := Z.of_nat (length l) in
  let k := if (i <? 0)%Z then (i + n)%Z else i in
  if (k <? 0)%Z then Failed IndexError
  else match l !! Z.to_nat k with
       | Some x => Done x
       | None => Failed IndexError
       end.

(** [set_metric(self, metric, inlier_only=False)]. *)
Definition set_metric (self : state) (metric : metric_arg)
    (inlier_only : bool) : outcome state :=
  let finish (name : string) :=
    Done {| metrics := metrics self; metric := name;
            inlier_only := inlier_only; resets := S (resets self) |} in
  match metric with
  | Name s =>
      if existsb (String.eqb s) (keys self) then finish s
      else Failed AssertionError
  | Index i =>
      let metric_list := keys self in
      match getitem metric_list i with
      | Done name => finish name
      | Failed e => Failed e
      end
  | Other => Failed AssertionError
  end.

(** The arguments [set_metric] accepts: the name of a metric, or an
    index into the list of metrics, counted from the start or, when
    negative, from the end. *)
Definition accepts (self : state) (metric : metric_arg) : Prop :=
  match metric with
  | Name s => s ∈ keys self
  | Index i =>
      (- Z.of_nat (length (keys self)) <= i < Z.of_nat (length (keys self)))%Z
  | Other => False
  end.

(** The position in the list that the index [i] stands for. *)
Definition position {A} (l : list A) (i : Z) : nat :=
  Z.to_nat (if (i <? 0)%Z then (i + Z.of_nat (length l))%Z else i).

(** The state [ViewModelCalibrated.__init__] sets up. *)
Definition calibrated_init : state :=
  {| metrics :=
       [("detected", "Detected (Outliers)"); ("median", "Median");
        ("upper_q", "Upper quartile"); ("max", "Maximum");
        ("rms", "Root Mean Square"); ("mse", "Mean Square Error")];
     metric := "detected";
     inlier_only := false;
     resets := 0 |}.

(** The colours are objects that the model and its callers share. *)
Abbreviation colors := (gmap positive Color).

(** The attributes of [ViewModelDetections] that its [cell_color]
    reads: the colour object [self.colors.detected] and the array
    [self.quantiles]. *)
Record Detections : Type := {
  colors_detected : positive;
  quantiles : list float
}.

(** [ViewModelDetections.cell_color(self, detection_count)]: the count
    is a numpy integer and the quartile a numpy float, whose division
    does not raise.  The colour is [self.colors.detected] itself, whose
    luminance is set in place. *)
Definition cell_color (self : Detections) (detection_count : Z)
    (h : colors) : outcome positive * colors :=
  let color := colors_detected self in
  match quantiles self !! 3%nat with
  | None => (Failed IndexError, h)
  | Some q3 =>
      let detection_rate :=
        py_min (PrimFloat.div (F64.of_Z detection_count) q3) 1%float in
      let l := py_max (PrimFloat.sub 1%float detection_rate) 0.7%float in
      (Done color, alter (fun c => set_luminance c l) color h)
  end.

End ViewModel.

(** A model of detections with its colour object 1, and the colours in
    use. *)
Definition sample_detections : ViewModel.Detections :=
  {| ViewModel.colors_detected := 1%positive;
     ViewModel.quantiles :=
       [0%float; 1%float; 2%float; 4%float; 8%float] |}.

Definition sample_colors : gmap positive Color :=
  <[1%positive :=
      {| hue := PrimFloat.div 1%float 3%float; saturation := 1%float;
         luminance := 0.5%float |}]> ∅.

(** ** viewer_3d/moving_cameras.py

    The markers are objects of the class [View] of the module [marker],
    which is not among the sources: the class is a parameter, with its
    constructor and the three methods the code calls, each of which acts
    on the one object it is called on.  The markers live in a store, since
    the code keeps references to them and changes them in place. *)

Section MovingCamerasModel.

Variable View Camera Pose : Type.
Variable View_new : Camera -> Pose -> float -> View.
Variable View_set_color : float * float * float -> View -> View.
Variable View_set_scale : float -> View -> View.
Variable View_show : bool -> View -> View.

(** The scene: the markers, the visibility of the board object, and the
    number of calls of [viewer.update()]. *)
Record scene : Type := {
  objs : gmap positive View;
  board_visible : bool;
  redraws : nat
}.

(** The fields of [state] that [update] reads. *)
Record ui_state : Type := {
  state_frame : Z;
  state_camera : Z;
  state_scale : float
}.

(** [add_view(view_pose, camera)] of [view_markers]: a new marker when
    the pose is valid, [None] otherwise. *)
Definition add_view (scale : float) (view_pose : Pose * bool)
    (camera : Camera) (h : gmap positive View)
  : option positive * gmap positive View :=
  if view_pose.2
  then let l := fresh (dom h) in
       (Some l, <[l := View_new camera view_pose.1 scale]> h)
  else (None, h).

(** The inner comprehension, over [zip(camera_poses._sequence(),
    cameras)]. *)
Fixpoint add_views (scale : float) (pairs : list ((Pose * bool) * Camera))
    (h : gmap positive View)
  : list (option positive) * gmap positive View :=
  match pairs with
  | [] => ([], h)
  | (view_pose, camera) :: pairs' =>
      let (view, h1) := add_view scale view_pose camera h in
      let (views, h2) := add_views scale pairs' h1 in
      (view :: views, h2)
  end.

(** The outer comprehension, over [view_poses._sequence(1)]. *)
Fixpoint add_frames (scale : float) (frames : list (list (Pose * bool)))
    (cameras : list Camera) (h : gmap positive View)
  : list (list (option positive)) * gmap positive View :=
  match frames with
  | [] => ([], h)
  | camera_poses :: frames' =>
      let (row, h1) := add_views scale (zip camera_poses cameras) h in
      let (rows, h2) := add_frames scale frames' cameras h1 in
      (row :: rows, h2)
  end.

(** [view_markers(viewer, pose_estimates, cameras, scale=1.0)].  The
    table [tables.inverse(tables.expand_poses(pose_estimates))], of
    shape (cameras, frames) with a pose and its validity in each cell,
    stands for [pose_estimates]; its sequence along axis 1 yields, frame
    by frame, the cells of all cameras. *)
Definition view_markers (view_poses : ndarray (Pose * bool))
    (cameras : list Camera) (scale : float) (h : gmap positive View)
  : list (list (option positive)) * gmap positive View :=
  add_frames scale (slices [0%nat] view_poses) cameras h.

(** [MovingCameras.valid_views]. *)
Definition valid_views (views : list (list (option positive)))
  : list positive :=
  omap id (concat views).

(** [MovingCameras.show(self, is_shown)]. *)
Definition MovingCameras_show (views : list (list (option positive)))
    (is_shown : bool) (sc : scene) : scene :=
  {| objs := foldl (fun h view => alter (View_show is_shown) view h)
                   (objs sc) (valid_views views);
     board_visible := is_shown;
     redraws := redraws sc |}.

(** The colour [update] gives to the marker of row [i], column [j]. *)
Definition marker_color (state : ui_state) (i j : nat)
  : float * float * float :=
  if (Z.of_nat i =? state_frame state)%Z
  then if (Z.of_nat j =? state_camera state)%Z
       then (1%float, 1%float, 0%float)
       else (0.5%float, 1%float, 0%float)
  else (0.5%float, 0.5%float, 0.5%float).

(** The inner loop of [update], from column [j] on. *)
Fixpoint update_row (state : ui_state) (i j : nat)
    (frame_views : list (option positive)) (h : gmap positive View)
  : gmap positive View :=
  match frame_views with
  | [] => h
  | view :: frame_views' =>
      let color := marker_color state i j in
      let h' :=
        match view with
        | Some l =>
            alter (View_set_scale (state_scale state)) l
                  (alter (View_set_color color) l h)
        | None => h
        end in
      update_row state i (S j) frame_views' h'
  end.

(** The outer loop of [update], from row [i] on. *)
Fixpoint update_rows (state : ui_state) (i : nat)
    (views : list (list (option positive))) (h : gmap positive View)
  : gmap positive View :=
  match views with
  | [] => h
  | frame_views :: views' =>
      update_rows state (S i) views' (update_row state i 0 frame_views h)
  end.

(** [MovingCameras.update(self, state)]. *)
Definition MovingCameras_update (views : list (list (option positive)))
    (state : ui_state) (sc : scene) : scene :=
  {| objs := update_rows state 0 views (objs sc);
     board_visible := board_visible sc;
     redraws := S (redraws sc) |}.

(** [MovingCameras.enable(self, state)] and [MovingCameras.disable(self)]. *)
Definition MovingCameras_enable (views : list (list (option positive)))
    (state : ui_state) (sc : scene) : scene :=
  MovingCameras_update views state (MovingCameras_show views true sc).

Definition MovingCameras_disable (views : list (list (option positive)))
    (sc : scene) : scene :=
  MovingCameras_show views false sc.

End MovingCamerasModel.

Arguments objs {View} s.
Arguments board_visible {View} s.
Arguments redraws {View} s.

(** A stand-in for the class [View]: a marker records what it was built
    from and what its methods were last called with. *)
Record sample_view : Type := {
  view_camera : nat;
  view_pose : nat;
  view_color : float * float * float;
  view_scale : float;
  view_shown : bool
}.

Definition sample_view_new (camera pose : nat) (scale : float) : sample_view :=
  {| view_camera := camera; view_pose := pose;
     view_color := (0%float, 0%float, 0%float);
     view_scale := scale; view_shown := true |}.

Definition sample_set_color (c : float * float * float) (v : sample_view)
  : sample_view :=
  {| view_camera := view_camera v; view_pose := view_pose v;
     view_color := c; view_scale := view_scale v;
     view_shown := view_shown v |}.

Definition sample_set_scale (s : float) (v : sample_view) : sample_view :=
  {| view_camera := view_camera v; view_pose := view_pose v;
     view_color := view_color v; view_scale := s;
     view_shown := view_shown v |}.

Definition sample_show (b : bool) (v : sample_view) : sample_view :=
  {| view_camera := view_camera v; view_pose := view_pose v;
     view_color := view_color v; view_scale := view_scale v;
     view_shown := b |}.

(** The poses of two cameras over three frames (pose [10 c + f] for
    camera [c] and frame [f]); camera 1 has no valid pose in frame 1. *)
Definition sample_view_poses : ndarray (nat * bool) :=
  NDArray [2; 3]%nat
    [(0, true); (1, true); (2, true);
     (10, true); (11, false); (12, true)]%nat.

(** The markers of [sample_view_poses], as [view_markers] numbers them,
    and a scene that holds them. *)
Definition sample_views : list (list (option positive)) :=
  [[Some 1; Some 2]; [Some 3; None]; [Some 4; Some 5]]%positive.

Definition sample_scene : scene sample_view :=
  {| objs :=
       (view_markers sample_view nat nat sample_view_new sample_view_poses
          [0; 1]%nat 1%float ∅).2;
     board_visible := false;
     redraws := 0 |}.

Definition sample_ui_state : ui_state :=
  {| state_frame := 2; state_camera := 0; state_scale := 2%float |}.

(** What a run of the comprehensions of [view_markers] guarantees about
    the markers [ls] it created, from the store [h] to the store [h']:
    the old markers are kept, the new ones are distinct objects that did
    not exist before. *)
Definition created {View : Type} (h h' : gmap positive View)
    (ls : list positive) : Prop :=
  h ⊆ h' /\ NoDup ls /\ forall l, l ∈ ls -> h !! l = None /\ is_Some (h' !! l).

(** * Properties *)

(** ** Slices and element-wise operations *)

(** Reducing axis 1 of a 2 x 3 array works on its rows, reducing axis 0
    on its columns, and [axis=None] on the whole array. *)
Example slices_rows : slices [1%nat] array_2x3 = [[1; 2; 3]; [4; 5; 6]]%Z.
Proof. reflexivity. Qed.

Example slices_columns :
  slices [0%nat] array_2x3 = [[1; 4]; [2; 5]; [3; 6]]%Z.
Proof. reflexivity. Qed.

Example reduce_all :
  reduce (fun l => fold_left Z.add l 0%Z) None array_2x3
  = Ok (NDArray [] [21%Z]).
Proof. reflexivity. Qed.

Example reduce_bad_axis :
  reduce (fun l => fold_left Z.add l 0%Z) (Some [2%nat]) array_2x3
  = Raise AxisError.
Proof. reflexivity. Qed.

Section SliceFacts.
Context {A B C : Type}.
Implicit Types (P : nat -> bool) (axes : list nat).

Lemma select_from_fmap (f : A -> B) P i (l : list A) :
  select_from P i (f <$> l) = f <$> select_from P i l.
Proof.
  revert i; induction l as [|x l IH]; intros i; simpl; [done|].
  rewrite IH. by destruct (P i).
Qed.

Lemma select_from_zip_with (f : A -> B -> C) P i (xs : list A) (ys : list B) :
  select_from P i (zip_with f xs ys)
  = zip_with f (select_from P i xs) (select_from P i ys).
Proof.
  assert (Hnil : forall l : list A, zip_with f l (@nil B) = []) by (by intros []).
  revert i ys; induction xs as [|x xs IH]; intros i [|y ys]; simpl;
    rewrite ?Hnil; try done.
  rewrite IH. by destruct (P i).
Qed.

Lemma slices_np_map (f : A -> B) axes (a : ndarray A) :
  slices axes (np_map f a) = (fun s : list A => f <$> s) <$> slices axes a.
Proof.
  unfold slices, slice; simpl. rewrite <- list_fmap_compose.
  apply list_fmap_ext; intros _ j _; simpl. apply select_from_fmap.
Qed.

Lemma slices_zip_with (f : A -> B -> C) axes sh (xs : list A) (ys : list B) :
  slices axes (NDArray sh (zip_with f xs ys))
  = zip_with (zip_with f) (slices axes (NDArray sh xs))
                          (slices axes (NDArray sh ys)).
Proof.
  unfold slices, slice; simpl.
  rewrite zip_with_fmap_l, zip_with_fmap_r, zip_with_diag.
  apply list_fmap_ext; intros _ j _; simpl. apply select_from_zip_with.
Qed.

Lemma length_slices axes (a : ndarray A) :
  length (slices axes a) = size_of (drop_axes axes 0 (shape a)).
Proof. unfold slices. by rewrite length_fmap, length_seq. Qed.

Lemma reduce_ok (f : list A -> B) axis axes (a : ndarray A) :
  resolve_axes axis (ndim a) = Ok axes ->
  reduce f axis a
  = Ok (NDArray (drop_axes axes 0 (shape a)) (f <$> slices axes a)).
Proof. intros H. unfold reduce. by rewrite H. Qed.

Lemma rmapM_ok (f : A -> result B) (g : A -> B) (l : list A) :
  (forall x, f x = Ok (g x)) -> rmapM f l = Ok (g <$> l).
Proof.
  intros H. induction l as [|x l IH]; simpl; [done|].
  by rewrite H, IH.
Qed.

End SliceFacts.

Lemma fmap_of_zip_with {A B C D} (g : C -> D) (f : A -> B -> C)
    (l : list A) (k : list B) :
  g <$> zip_with f l k = zip_with (fun x y => g (f x y)) l k.
Proof.
  revert k; induction l as [|x l IH]; intros [|y k]; simpl; try done.
  by rewrite <- IH.
Qed.

Lemma slices_same_length {A B} axes (a : ndarray A) (b : ndarray B) :
  shape a = shape b -> length (slices axes a) = length (slices axes b).
Proof. intros H. by rewrite !length_slices, H. Qed.

Lemma fold_left_b2z (l : list bool) (acc : Z) :
  fold_left Z.add (Z.b2z <$> l) acc
  = (acc + Z.of_nat (length (List.filter (fun b : bool => b) l)))%Z.
Proof.
  revert acc; induction l as [|b l IH]; intros acc; simpl; [lia|].
  rewrite IH. destruct b; simpl; lia.
Qed.

Lemma count_sum_spec (l : list bool) : Np.count_sum l = count_true l.
Proof. unfold Np.count_sum, count_true. by rewrite fold_left_b2z. Qed.

Lemma filter_zip_fmap_length (v i : list bool) :
  count_true (zip_with andb v (negb <$> i)) = count_outliers (zip v i).
Proof.
  unfold count_true, count_outliers. f_equal.
  revert i; induction v as [|x v IH]; intros [|y i]; simpl; try done.
  specialize (IH i).
  destruct x, y; simpl; first [exact IH | f_equal; exact IH].
Qed.

(** ** What [masked_quantile] and [reprojection_statistics] return *)

Lemma masked_quantile_eq error mask qs axis axes :
  shape mask = shape error ->
  resolve_axes axis (ndim error) = Ok axes ->
  forallb Np.quantile_is_valid qs = true ->
  masked_quantile error mask qs axis
  = Ok ((fun q => NDArray (drop_axes axes 0 (shape error))
                    (Np.nanquantile_1d q <$> slices axes (nan_filled error mask)))
        <$> qs).
Proof.
  intros Hsh Hax Hqs. unfold masked_quantile, setitem_mask, Np.invert.
  simpl. rewrite Hsh, bool_decide_eq_true_2 by done. simpl.
  unfold Np.nanquantile. rewrite Hqs.
  apply rmapM_ok; intros q.
  exact (reduce_ok _ axis axes (nan_filled error mask) Hax).
Qed.

(** NaN-filling and then dropping the NaN entries keeps the entries the
    mask selects, less those that are NaN themselves. *)
Lemma filter_nan_filled (error : list float) (mask : list bool) :
  List.filter (fun x => negb (F64.is_nan x))
    (zip_with (fun x (m : bool) => if m then F64.nan else x)
              error (negb <$> mask))
  = List.filter (fun x => negb (F64.is_nan x)) (masked_values error mask).
Proof.
  revert mask; induction error as [|x error IH]; intros [|m mask]; simpl;
    try done.
  destruct m; simpl.
  - by rewrite <- IH.
  - exact (IH mask).
Qed.

Lemma nanquantile_nan_filled q (error : list float) (mask : list bool) :
  Np.nanquantile_1d q
    (zip_with (fun x (m : bool) => if m then F64.nan else x)
              error (negb <$> mask))
  = quantile_of_masked q error mask.
Proof.
  unfold quantile_of_masked, Np.nanquantile_1d.
  by rewrite filter_nan_filled.
Qed.

Lemma masked_values_all_false {A} (xs : list A) (mask : list bool) :
  Forall (eq false) mask -> masked_values xs mask = [].
Proof.
  intros H; revert xs; induction H as [|m mask <- _ IH]; intros [|x xs];
    simpl; auto.
Qed.

Lemma slices_nan_filled axes error mask :
  shape mask = shape error ->
  slices axes (nan_filled error mask)
  = zip_with
      (zip_with (fun x (m : bool) => if m then F64.nan else x))
      (slices axes error)
      ((fun s : list bool => negb <$> s) <$> slices axes mask).
Proof.
  intros Hsh. unfold nan_filled. rewrite slices_zip_with.
  rewrite <- (slices_np_map negb axes mask). unfold np_map.
  rewrite Hsh. by destruct error.
Qed.

(** The quantile arrays of [masked_quantile], slice by slice. *)
Lemma masked_quantile_slices error mask qs axis axes :
  shape mask = shape error ->
  resolve_axes axis (ndim error) = Ok axes ->
  forallb Np.quantile_is_valid qs = true ->
  masked_quantile error mask qs axis
  = Ok ((fun q => NDArray (drop_axes axes 0 (shape error))
                    (zip_with (quantile_of_masked q)
                       (slices axes error) (slices axes mask)))
        <$> qs).
Proof.
  intros Hsh Hax Hqs. rewrite (masked_quantile_eq _ _ _ _ axes) by done.
  f_equal. apply list_fmap_ext; intros _ q _. f_equal.
  rewrite slices_nan_filled by done.
  rewrite zip_with_fmap_r, fmap_of_zip_with.
  apply zip_with_ext; [|done..].
  intros se sm. apply nanquantile_nan_filled.
Qed.

Lemma five_quantiles_valid : forallb Np.quantile_is_valid five_quantiles = true.
Proof. reflexivity. Qed.

Lemma mse_data axes (error : ndarray float) (valid : ndarray bool) :
  zip_with (fun x n => PrimFloat.div x (F64.of_Z n))
    (F64.sum <$> slices axes (Np.square error))
    ((fun n => Z.max n 1) <$> (Np.count_sum <$> slices axes valid))
  = zip_with mse_all_points (slices axes error) (slices axes valid).
Proof.
  unfold Np.square. rewrite slices_np_map, <- !list_fmap_compose.
  rewrite zip_with_fmap_l, zip_with_fmap_r.
  apply zip_with_ext; [|done..].
  intros se sv. unfold mse_all_points; simpl. by rewrite count_sum_spec.
Qed.

Lemma outliers_data axes (valid inlier : ndarray bool) :
  Np.count_sum
    <$> slices axes (NDArray (shape valid)
                       (zip_with andb (data valid) (negb <$> data inlier)))
  = count_outliers <$> slices axes (np_pair valid inlier).
Proof.
  unfold np_pair, slices, slice; simpl.
  rewrite <- !list_fmap_compose.
  apply list_fmap_ext; intros _ j _; simpl.
  rewrite !select_from_zip_with, select_from_fmap.
  by rewrite count_sum_spec, filter_zip_fmap_length.
Qed.

Lemma reprojection_statistics_eq error valid inlier axis axes :
  shape error = shape valid ->
  shape inlier = shape valid ->
  resolve_axes axis (ndim valid) = Ok axes ->
  let out := drop_axes axes 0 (shape valid) in
  let mse :=
    NDArray out
      (zip_with mse_all_points (slices axes error) (slices axes valid)) in
  let quantile q :=
    NDArray out
      (zip_with (quantile_of_masked q)
                (slices axes error) (slices axes valid)) in
  reprojection_statistics error valid inlier axis
  = Ok (StatsTable.create_fields
          (NDArray out (count_true <$> slices axes valid))
          (NDArray out (count_outliers <$> slices axes (np_pair valid inlier)))
          mse (Np.sqrt mse)
          (quantile 0%float) (quantile 0.25%float) (quantile 0.5%float)
          (quantile 0.75%float) (quantile 1%float)).
Proof.
  intros He Hi Hax out mse quantile.
  assert (Hax' : resolve_axes axis (ndim error) = Ok axes)
    by (unfold ndim; by rewrite He).
  unfold reprojection_statistics, Np.sum_bool, Np.sum.
  rewrite (reduce_ok _ axis axes valid Hax); simpl.
  rewrite (reduce_ok _ axis axes (Np.square error) Hax'); simpl.
  unfold Np.true_divide, Np.maximum, np_zip, np_map; simpl.
  rewrite He, bool_decide_eq_true_2 by done; simpl.
  unfold Np.bitwise_and, Np.invert, np_zip, np_map; simpl.
  rewrite Hi, bool_decide_eq_true_2 by done; simpl.
  rewrite (reduce_ok _ axis axes
             (NDArray (shape valid)
                (zip_with andb (data valid) (negb <$> data inlier))) Hax);
    simpl.
  rewrite (masked_quantile_slices error valid five_quantiles axis axes)
    by (done || apply five_quantiles_valid).
  simpl. unfold StatsTable.create; simpl.
  rewrite He, bool_decide_eq_true_2 by (repeat constructor).
  rewrite mse_data, outliers_data.
  f_equal. f_equal. apply (f_equal (NDArray _)).
  apply list_fmap_ext; intros _ s _. apply count_sum_spec.
Qed.


Lemma quantile_of_masked_all_false q (error : list float) (mask : list bool) :
  Forall (eq false) mask -> quantile_of_masked q error mask = F64.nan.
Proof.
  intros H. unfold quantile_of_masked.
  by rewrite masked_values_all_false.
Qed.

Lemma slices_lookup_both {A B} axes (a : ndarray A) (b : ndarray B) j sb :
  shape a = shape b ->
  slices axes b !! j = Some sb ->
  exists sa, slices axes a !! j = Some sa.
Proof.
  intros Hsh Hj. apply lookup_lt_is_Some.
  rewrite (slices_same_length axes a b Hsh).
  by apply lookup_lt_is_Some; exists sb.
Qed.

(** ** Claims on [reprojection_statistics] *)

(** C2 (the code does not do it): with errors 3 and 4 of which only the
    first is valid, [reprojection_statistics] reports
    mse = (9 + 16) / 1 = 25: the invalid point is summed, although the
    divisor, the outlier count and the quantiles of the same call leave
    it out.  The sum over the valid points only gives 9 / 1 = 9. *)
Lemma mse_counts_invalid_points :
  exists t,
    reprojection_statistics error_3_4 valid_1_0 inlier_1_1 None = Ok t
    /\ data (StatsTable.mse t) = [25%float]
    /\ zip_with mse_valid_only (slices [0%nat] error_3_4)
                               (slices [0%nat] valid_1_0) = [9%float]
    /\ data (StatsTable.mse t)
       <> zip_with mse_valid_only (slices [0%nat] error_3_4)
                                  (slices [0%nat] valid_1_0).
Proof.
  eexists; split; [reflexivity|]. split; [reflexivity|].
  split; [reflexivity|].
  intros H. apply (f_equal (fun l => PrimFloat.eqb (nth 0 l 0%float) 9%float)) in H.
  vm_compute in H. discriminate.
Qed.

(** What the mse line computes on every input: slice by slice, the
    squared error summed over every point of the slice, the invalid ones
    included, divided by max(number of valid points, 1). *)
Lemma reprojection_statistics_mse error valid inlier axis axes :
  shape error = shape valid ->
  shape inlier = shape valid ->
  resolve_axes axis (ndim valid) = Ok axes ->
  exists t,
    reprojection_statistics error valid inlier axis = Ok t
    /\ StatsTable.mse t
       = NDArray (drop_axes axes 0 (shape valid))
           (zip_with mse_all_points (slices axes error) (slices axes valid)).
Proof.
  intros He Hi Hax. eexists; split.
  - by apply reprojection_statistics_eq.
  - reflexivity.
Qed.

Lemma reprojection_statistics_mse_witness :
  exists t,
    reprojection_statistics error_3_4 valid_1_0 inlier_1_1 None = Ok t
    /\ StatsTable.mse t = NDArray [] [25%float].
Proof.
  exact (reprojection_statistics_mse error_3_4 valid_1_0 inlier_1_1 None
           [0%nat] eq_refl eq_refl eq_refl).
Defined.




(** C4: [detected] is, slice by slice along the reduction axis, the
    number of points with [valid] true, and [outliers] the number of
    points with [valid] true and [inlier] false. *)
Theorem reprojection_statistics_counts error valid inlier axis axes :
  shape error = shape valid ->
  shape inlier = shape valid ->
  resolve_axes axis (ndim valid) = Ok axes ->
  exists t,
    reprojection_statistics error valid inlier axis = Ok t
    /\ StatsTable.detected t
       = NDArray (drop_axes axes 0 (shape valid))
           (count_true <$> slices axes valid)
    /\ StatsTable.outliers t
       = NDArray (drop_axes axes 0 (shape valid))
           (count_outliers <$> slices axes (np_pair valid inlier)).
Proof.
  intros He Hi Hax. eexists; split.
  - by apply reprojection_statistics_eq.
  - split; reflexivity.
Qed.

Lemma reprojection_statistics_counts_witness :
  exists t,
    reprojection_statistics error_10 valid_10 inlier_8_of_10 (Some [2%nat])
    = Ok t
    /\ StatsTable.detected t = NDArray [1; 1]%nat [10%Z]
    /\ StatsTable.outliers t = NDArray [1; 1]%nat [2%Z].
Proof.
  exact (reprojection_statistics_counts error_10 valid_10 inlier_8_of_10
           (Some [2%nat]) [2%nat] eq_refl eq_refl eq_refl).
Defined.

(** ** Claims on [masked_quantile] *)

(** Two arrays that agree wherever the mask is true are NaN-filled to
    the same array. *)
Lemma nan_filled_agree (error error' : ndarray float) (mask : ndarray bool) :
  shape error' = shape error ->
  length (data error') = length (data error) ->
  (forall k, data mask !! k = Some true ->
             data error' !! k = data error !! k) ->
  nan_filled error' mask = nan_filled error mask.
Proof.
  intros Hsh Hlen Hk. unfold nan_filled. rewrite Hsh. f_equal.
  apply list_eq; intros k. rewrite !lookup_zip_with, list_lookup_fmap.
  destruct (data mask !! k) as [[|]|] eqn:Hm; simpl.
  - by rewrite (Hk k Hm).
  - destruct (data error' !! k) as [x'|] eqn:H'.
    + destruct (lookup_lt_is_Some_2 (data error) k) as [x Hx].
      { rewrite <- Hlen. by apply lookup_lt_is_Some; exists x'. }
      by rewrite Hx.
    + apply lookup_ge_None in H'. rewrite Hlen in H'.
      apply lookup_ge_None in H'. by rewrite H'.
  - by destruct (data error' !! k), (data error !! k).
Qed.

(** C5: the quantiles are those of the entries the mask selects, slice
    by slice; entries at masked-out positions have no influence on the
    result; a slice that is masked out entirely yields NaN, without
    raising. *)
Theorem masked_quantile_ignores_masked error mask qs axis axes :
  shape mask = shape error ->
  resolve_axes axis (ndim error) = Ok axes ->
  forallb Np.quantile_is_valid qs = true ->
  exists rs,
    masked_quantile error mask qs axis = Ok rs
    /\ rs = (fun q => NDArray (drop_axes axes 0 (shape error))
                        (zip_with (quantile_of_masked q)
                           (slices axes error) (slices axes mask)))
            <$> qs
    /\ (forall error',
          shape error' = shape error ->
          length (data error') = length (data error) ->
          (forall k, data mask !! k = Some true ->
                     data error' !! k = data error !! k) ->
          masked_quantile error' mask qs axis = Ok rs)
    /\ (forall j sm,
          slices axes mask !! j = Some sm ->
          Forall (eq false) sm ->
          Forall (fun r => data r !! j = Some F64.nan) rs).
Proof.
  intros Hsh Hax Hqs. eexists. split; [by apply masked_quantile_slices|].
  split; [reflexivity|]. split.
  - intros error' Hsh' Hlen Hk.
    assert (Hax' : resolve_axes axis (ndim error') = Ok axes)
      by (unfold ndim; by rewrite Hsh').
    rewrite (masked_quantile_eq error' mask qs axis axes)
      by (done || congruence).
    rewrite <- (masked_quantile_slices error mask qs axis axes) by done.
    rewrite (masked_quantile_eq error mask qs axis axes) by done.
    by rewrite (nan_filled_agree error error' mask), Hsh'.
  - intros j sm Hj Hsm. apply Forall_fmap, Forall_forall; intros q _; simpl.
    destruct (slices_lookup_both axes error mask j sm) as [se Hse];
      [done..|].
    rewrite lookup_zip_with, Hse, Hj; simpl.
    by rewrite quantile_of_masked_all_false.
Qed.

Lemma masked_quantile_ignores_masked_witness :
  exists rs,
    masked_quantile error_1_2_100_3 mask_1_1_0_1 five_quantiles None = Ok rs
    /\ rs = (fun q => NDArray []
                        (zip_with (quantile_of_masked q)
                           (slices [0%nat] error_1_2_100_3)
                           (slices [0%nat] mask_1_1_0_1)))
            <$> five_quantiles
    /\ (forall error',
          shape error' = shape error_1_2_100_3 ->
          length (data error') = length (data error_1_2_100_3) ->
          (forall k, data mask_1_1_0_1 !! k = Some true ->
                     data error' !! k = data error_1_2_100_3 !! k) ->
          masked_quantile error' mask_1_1_0_1 five_quantiles None = Ok rs)
    /\ (forall j sm,
          slices [0%nat] mask_1_1_0_1 !! j = Some sm ->
          Forall (eq false) sm ->
          Forall (fun r => data r !! j = Some F64.nan) rs).
Proof.
  exact (masked_quantile_ignores_masked error_1_2_100_3 mask_1_1_0_1
           five_quantiles None [0%nat] eq_refl eq_refl eq_refl).
Defined.

(** The quantiles of 1, 2, 3 (the 100 is masked out), and of a slice
    that is masked out entirely. *)
Example masked_quantile_sample :
  masked_quantile error_1_2_100_3 mask_1_1_0_1 five_quantiles None
  = Ok [NDArray [] [1%float]; NDArray [] [1.5%float]; NDArray [] [2%float];
        NDArray [] [2.5%float]; NDArray [] [3%float]].
Proof. reflexivity. Qed.

Example masked_quantile_all_masked :
  masked_quantile error_3_4 (NDArray [2%nat] [false; false])
                  [0.5%float] None
  = Ok [NDArray [] [F64.nan]].
Proof. reflexivity. Qed.

(** ** The store: what the calls read, allocate and write *)

Section StoreFacts.
Import Store.
Implicit Types (h : gmap loc obj) (l : loc).

Lemma fresh_unused h : h !! fresh (dom h) = None.
Proof. apply not_elem_of_dom, is_fresh. Qed.

Lemma preserves_ret {A} (a : A) : preserves_store (ret a).
Proof. by intros h. Qed.

Lemma preserves_lift {A} (r : result A) : preserves_store (lift r).
Proof. by intros h. Qed.

Lemma preserves_bind {A B} (m : M A) (k : A -> M B) :
  preserves_store m -> (forall a, preserves_store (k a)) ->
  preserves_store (bind m k).
Proof.
  intros Hm Hk h. unfold bind. specialize (Hm h).
  destruct (m h) as [[a|e] h']; simpl in *; [|done].
  etrans; [exact Hm|apply Hk].
Qed.

Lemma preserves_alloc o : preserves_store (alloc o).
Proof. intros h; simpl. apply insert_subseteq, fresh_unused. Qed.

Lemma preserves_load_float l : preserves_store (load_float l).
Proof. intros h. unfold load_float. by repeat case_match. Qed.

Lemma preserves_load_bool l : preserves_store (load_bool l).
Proof. intros h. unfold load_bool. by repeat case_match. Qed.

Lemma preserves_load_table l : preserves_store (load_table l).
Proof. intros h. unfold load_table. by repeat case_match. Qed.

Lemma preserves_getattr l name : preserves_store (getattr l name).
Proof.
  apply preserves_bind; [apply preserves_load_table|].
  intros fs. case_match; [apply preserves_ret|apply preserves_lift].
Qed.

(** A write to an object that did not exist in [h0] leaves [h0] as it
    is. *)
Lemma setitem_frame h0 h l mask v :
  h0 !! l = None -> h0 ⊆ h -> h0 ⊆ (setitem l mask v h).2.
Proof.
  intros Hl Hsub. unfold setitem, bind, load_float, lift, store.
  repeat (case_match; simplify_eq/=); try done.
  by apply insert_subseteq_r.
Qed.

Lemma copy_spec l h :
  (exists a, h !! l = Some (FloatArray a)
             /\ copy l h = (Ok (fresh (dom h)),
                            <[fresh (dom h) := FloatArray a]> h))
  \/ (exists e, copy l h = (Raise e, h)).
Proof.
  unfold copy, bind, load_float, alloc.
  destruct (h !! l) as [[a| |]|]; eauto.
Qed.

Lemma preserves_masked_quantile error mask qs axis :
  preserves_store (masked_quantile error mask qs axis).
Proof.
  intros h. unfold masked_quantile. unfold bind at 1.
  destruct (copy_spec error h) as [(a & _ & ->)|(e & ->)]; [|done].
  set (l := fresh (dom h)). set (h1 := <[l := FloatArray a]> h).
  assert (Hl : h !! l = None) by apply fresh_unused.
  assert (H1 : h ⊆ h1) by by apply insert_subseteq.
  unfold bind at 1. pose proof (preserves_load_bool mask h1) as Hm.
  destruct (load_bool mask h1) as [[m|e] h2] eqn:Hload; simpl in Hm.
  2:{ simpl. by etrans. }
  assert (h2 = h1) as ->.
  { unfold load_bool in Hload. by repeat case_match; simplify_eq. }
  unfold bind at 1.
  pose proof (setitem_frame h h1 l (Np.invert m) F64.nan Hl H1) as Hs.
  destruct (setitem l (Np.invert m) F64.nan h1) as [[[]|e] h3];
    simpl in *; [|done].
  etrans; [exact Hs|].
  apply (preserves_bind (load_float l) _).
  - apply preserves_load_float.
  - intros e. apply preserves_lift.
Qed.

(** One step through a computation built from the operations above. *)
Ltac preserves_step :=
  first
    [ simple apply preserves_masked_quantile
    | simple apply preserves_load_bool
    | simple apply preserves_load_float
    | simple apply preserves_getattr
    | simple apply preserves_alloc
    | simple apply preserves_lift
    | simple apply preserves_ret
    | simple apply preserves_bind; [|intros ?] ].

Lemma preserves_reprojection_statistics error valid inlier axis :
  preserves_store (reprojection_statistics error valid inlier axis).
Proof.
  unfold reprojection_statistics. repeat preserves_step.
  repeat case_match; apply preserves_lift.
Qed.

Lemma preserves_Table_extend table name field :
  preserves_store (Table_extend table name field).
Proof.
  apply preserves_bind; [apply preserves_load_table|].
  intros fs. apply preserves_alloc.
Qed.

Lemma preserves_reprojection_error projected detected :
  preserves_store (reprojection_error projected detected).
Proof.
  unfold reprojection_error. repeat preserves_step.
Qed.

Lemma preserves_reprojection_tables calib inlier_only :
  preserves_store (reprojection_tables calib inlier_only).
Proof.
  unfold reprojection_tables.
  apply preserves_bind.
  { destruct inlier_only;
      [apply preserves_Table_extend|apply preserves_ret]. }
  intros point_table. apply preserves_bind.
  { apply preserves_reprojection_error. }
  intros [error valid].
  repeat first
    [ simple apply preserves_reprojection_statistics
    | preserves_step ].
Qed.

End StoreFacts.

Section StoreValues.
Implicit Types (h : gmap Store.loc Store.obj) (l : Store.loc).

(** On the store, [masked_quantile] returns what it returns on the
    contents of its two arrays. *)
Lemma masked_quantile_store_value h error mask E Mk qs axis :
  h !! error = Some (Store.FloatArray E) ->
  h !! mask = Some (Store.BoolArray Mk) ->
  (Store.masked_quantile error mask qs axis h).1
  = masked_quantile E Mk qs axis.
Proof.
  intros He Hm. pose proof (fresh_unused h) as Hl.
  unfold Store.masked_quantile, Store.copy, Store.setitem, Store.bind,
    Store.load_float, Store.load_bool, Store.alloc, Store.store, Store.lift;
    simpl.
  rewrite He; simpl.
  rewrite lookup_insert_ne, Hm by congruence; simpl.
  rewrite lookup_insert_eq; simpl.
  unfold masked_quantile.
  destruct (setitem_mask E (Np.invert Mk) F64.nan) as [E'|e]; simpl; [|done].
  rewrite lookup_insert_eq; simpl. by rewrite lookup_insert_eq.
Qed.

(** When [masked_quantile] gets as far as the assignment, the NaN-filled
    array is a new object, and the caller's array is the one it was. *)
Lemma masked_quantile_fills_a_copy h error mask E Mk qs axis :
  h !! error = Some (Store.FloatArray E) ->
  h !! mask = Some (Store.BoolArray Mk) ->
  shape Mk = shape E ->
  let h' := (Store.masked_quantile error mask qs axis h).2 in
  h' !! error = Some (Store.FloatArray E)
  /\ h !! fresh (dom h) = None
  /\ h' !! fresh (dom h) = Some (Store.FloatArray (nan_filled E Mk)).
Proof.
  intros He Hm Hsh h'. pose proof (fresh_unused h) as Hl.
  split; [|split; [done|]].
  - by apply (lookup_weaken h), preserves_masked_quantile.
  - subst h'.
    unfold Store.masked_quantile, Store.copy, Store.setitem, Store.bind,
      Store.load_float, Store.load_bool, Store.alloc, Store.store,
      Store.lift; simpl.
    rewrite He; simpl.
    rewrite lookup_insert_ne, Hm by congruence; simpl.
    rewrite lookup_insert_eq; simpl.
    unfold setitem_mask; simpl. rewrite Hsh, bool_decide_eq_true_2 by done.
    simpl. rewrite lookup_insert_eq; simpl. rewrite lookup_insert_eq; simpl.
    by rewrite lookup_insert_eq.
Qed.

(** On the store, [reprojection_statistics] returns what it returns on
    the contents of its three arrays. *)
Lemma reprojection_statistics_store_value
    h error valid inlier E V I axis :
  h !! error = Some (Store.FloatArray E) ->
  h !! valid = Some (Store.BoolArray V) ->
  h !! inlier = Some (Store.BoolArray I) ->
  (Store.reprojection_statistics error valid inlier axis h).1
  = reprojection_statistics E V I axis.
Proof.
  intros He Hv Hi.
  unfold Store.reprojection_statistics, reprojection_statistics.
  unfold Store.bind at 1, Store.load_bool at 1. rewrite Hv.
  unfold Store.bind at 1, Store.lift at 1.
  destruct (Np.sum_bool V axis) as [n|e]; simpl; [|done].
  unfold Store.bind at 1, Store.load_float at 1. rewrite He.
  unfold Store.bind at 1, Store.lift at 1.
  destruct (Np.sum (Np.square E) axis) as [sq|e]; simpl; [|done].
  unfold Store.bind at 1, Store.lift at 1.
  destruct (Np.true_divide sq (Np.maximum n 1)) as [mse|e]; simpl; [|done].
  unfold Store.bind at 1, Store.load_bool at 1. rewrite Hi.
  unfold Store.bind at 1, Store.lift at 1.
  destruct (Np.bitwise_and V (Np.invert I)) as [vo|e]; simpl; [|done].
  unfold Store.bind at 1, Store.lift at 1.
  destruct (Np.sum_bool vo axis) as [outliers|e]; simpl; [|done].
  unfold Store.bind at 1.
  pose proof (masked_quantile_store_value h error valid E V five_quantiles
                axis He Hv) as Hq.
  destruct (Store.masked_quantile error valid five_quantiles axis h)
    as [r h']; simpl in Hq; subst r.
  destruct (masked_quantile E V five_quantiles axis) as [qs|e]; simpl;
    [|done].
  by repeat (case_match; simplify_eq/=).
Qed.

End StoreValues.

(** ** Claim on the purity of [masked_quantile] and [reprojection_tables] *)

(** C9: every object that exists before a call of [masked_quantile] or
    of [reprojection_tables] (the error array, the mask, the point table
    and the arrays it refers to among them) has the same contents after
    the call. *)
Theorem view_table_calls_preserve_inputs
    (h : gmap Store.loc Store.obj) (l : Store.loc) (o : Store.obj) :
  h !! l = Some o ->
  (forall error mask qs axis,
     (Store.masked_quantile error mask qs axis h).2 !! l = Some o)
  /\ (forall calib inlier_only,
        (Store.reprojection_tables calib inlier_only h).2 !! l = Some o).
Proof.
  intros Hl. split; intros.
  - by apply (lookup_weaken h), preserves_masked_quantile.
  - by apply (lookup_weaken h), preserves_reprojection_tables.
Qed.

Lemma view_table_calls_preserve_inputs_witness :
  (forall error mask qs axis,
     (Store.masked_quantile error mask qs axis sample_heap).2 !! 6%positive
     = Some (Store.Table (<["points" := 4%positive]>
                            (<["valid_points" := 5%positive]> ∅))))
  /\ (forall calib inlier_only,
        (Store.reprojection_tables calib inlier_only sample_heap).2
          !! 6%positive
        = Some (Store.Table (<["points" := 4%positive]>
                               (<["valid_points" := 5%positive]> ∅)))).
Proof.
  apply (view_table_calls_preserve_inputs sample_heap 6%positive).
  reflexivity.
Defined.

(** [masked_quantile] returns the median of 1, 2 and 3; the array it was
    given still holds 100 at the masked-out position, and the NaN-filled
    copy is the new object 3. *)
Example masked_quantile_on_error_heap :
  let r :=
    Store.masked_quantile 1%positive 2%positive [0.5%float] None error_heap in
  r.1 = Ok [NDArray [] [2%float]]
  /\ r.2 !! 1%positive = Some (Store.FloatArray error_1_2_100_3)
  /\ r.2 !! 3%positive
     = Some (Store.FloatArray
               (NDArray [4%nat] [1%float; 2%float; F64.nan; 3%float])).
Proof. repeat split; reflexivity. Qed.

(** Through [reprojection_tables]: the second point of the sample view
    is not valid in the projected table, and its error 5 is summed all
    the same, mse = (9 + 25) / 1 = 34 with one detected point. *)
Example reprojection_tables_counts_invalid_point :
  exists t,
    (Store.reprojection_tables sample_calib false sample_heap).1 = Ok t
    /\ data (StatsTable.detected (Store.overall t)) = [1%Z]
    /\ data (StatsTable.mse (Store.overall t)) = [34%float].
Proof. eexists. repeat split; reflexivity. Qed.

(** With [inlier_only], the statistics are computed on a new table
    (no point is both projected valid and an inlier here); the point
    table of the calibration is the one it was. *)
Example reprojection_tables_on_sample_heap :
  exists t,
    (Store.reprojection_tables sample_calib true sample_heap).1 = Ok t
    /\ data (StatsTable.detected (Store.views t)) = [0%Z]
    /\ (Store.reprojection_tables sample_calib true sample_heap).2
         !! 6%positive = sample_heap !! 6%positive.
Proof. eexists. repeat split; reflexivity. Qed.

(** ** Claims on the Static motion model *)

Section StaticFacts.
Context {Camera : Type}.
Context (camera_project : Camera -> pyval Camera -> result (pyval Camera)).
Context (tables_expand_views tables_transform_points :
           pyval Camera -> pyval Camera -> result (pyval Camera)).

Local Abbreviation reproject :=
  (Static_reproject Camera camera_project tables_expand_views
     tables_transform_points).
Local Abbreviation project :=
  (Static_project Camera camera_project tables_expand_views
     tables_transform_points).
Local Abbreviation call :=
  (call_method Camera camera_project tables_expand_views
     tables_transform_points).

(** C1 (the code does not do it): [with_params(x)] returns [None], not
    an instance of [Static], [params()] returns [None], and the round
    trip [model.with_params(x).params()] raises [AttributeError], for
    every instance and every vector [x]. *)
Theorem Static_round_trip_raises (dict : list (string * pyval Camera))
    (x : pyval Camera) :
  call (PyStatic dict) "with_params" [x] = Ok PyNone
  /\ call (PyStatic dict) "params" [] = Ok PyNone
  /\ round_trip Camera camera_project tables_expand_views
       tables_transform_points (PyStatic dict) x
     = Raise AttributeError.
Proof. repeat split; reflexivity. Qed.

(** C6 (the code does not do it): [project] calls [self.reproject] with
    three arguments where its signature asks for four, so every call of
    [project] raises [TypeError]. *)
Theorem Static_project_raises (self cameras camera_poses world_points :
    pyval Camera) :
  project self [cameras; camera_poses; world_points] = Raise TypeError.
Proof. reflexivity. Qed.

(** [reproject] on an instance as [Static(poses)] builds it: the
    attribute [cameras] was never assigned, and no table is returned. *)
Lemma Static_reproject_new_instance
    (poses cameras camera_poses world_points detected : pyval Camera) :
  forall t,
    reproject (Static_init poses)
      [cameras; camera_poses; world_points; detected] <> Ok t.
Proof.
  intros t. unfold Static_reproject; simpl.
  destruct (tables_expand_views camera_poses poses) as [view_table|e];
    simpl; [|done].
  by destruct (tables_transform_points world_points view_table).
Qed.

(** C7 (the code does not do it): on an instance as [Static(poses)]
    builds it, [reproject] returns no table, whatever [detected] is: it
    reads [self.cameras], which [__init__] never assigns.  And on every
    instance its outcome is the same for every value of [detected]: the
    body never reads this argument, so nothing is aligned against the
    detections. *)
Theorem Static_reproject_ignores_detected
    (self poses cameras camera_poses world_points detected : pyval Camera) :
  (forall t,
     reproject (Static_init poses)
       [cameras; camera_poses; world_points; detected] <> Ok t)
  /\ (forall detected',
        reproject self [cameras; camera_poses; world_points; detected]
        = reproject self [cameras; camera_poses; world_points; detected']).
Proof.
  split; [apply Static_reproject_new_instance|reflexivity].
Qed.

(** C8 (the code does not do it): [sparsity] returns [None], whatever the
    index table: there is no sparsity structure to speak of. *)
Theorem Static_sparsity_returns_None (self index_table : pyval Camera) :
  Static_sparsity self [index_table] = Ok PyNone
  /\ (forall dict,
        call (PyStatic dict) "sparsity" [index_table] = Ok PyNone).
Proof. split; reflexivity. Qed.

End StaticFacts.

(** Even on an instance that was given a [cameras] attribute from
    outside, with stand-ins for the camera and for [multical.tables], the
    one point is [valid] in the returned table although [detected] marks
    it undetected. *)
Example Static_reproject_keeps_undetected_point :
  Static_reproject unit (fun _ p => Ok p) (fun _ poses => Ok poses)
    (fun _ _ => Ok sample_transformed) sample_static
    [PyNone; PyNone; PyNone; sample_detected]
  = Ok sample_transformed
  /\ getattr sample_detected "valid_points"
     = Ok (PyBoolArray (NDArray [1; 1]%nat [false]))
  /\ getattr sample_transformed "valid"
     = Ok (PyBoolArray (NDArray [1; 1]%nat [true])).
Proof. repeat split; reflexivity. Qed.

(** ** Claim on [ViewModelCalibrated.cell_color] *)

Lemma py_max_int_ge_1 (d : Z) : (1 <= py_max_int d 1)%Z.
Proof. unfold py_max_int. destruct (Z.ltb_spec d 1); lia. Qed.

Lemma truediv_ok (a b : Z) :
  b <> 0%Z -> truediv a b = Ok (PrimFloat.div (F64.of_Z a) (F64.of_Z b)).
Proof.
  intros Hb. unfold truediv. by destruct (Z.eqb_spec b 0).
Qed.

(** The division by [max(detected, 1)] never fails. *)
Lemma outlier_rate_defined (view_stats : ViewStats) :
  truediv (outliers view_stats) (py_max_int (detected view_stats) 1)
  = Ok (PrimFloat.div (F64.of_Z (outliers view_stats))
          (F64.of_Z (py_max_int (detected view_stats) 1))).
Proof.
  apply truediv_ok. pose proof (py_max_int_ge_1 (detected view_stats)). lia.
Qed.

(** C10: for a view without detections the denominator of the outlier
    rate is max(0, 1) = 1, the division is defined, and [cell_color]
    returns a colour. *)
Theorem cell_color_zero_detections (self : ViewModelCalibrated)
    (view_stats : ViewStats) :
  num_points self <> 0%Z ->
  detected view_stats = 0%Z ->
  py_max_int (detected view_stats) 1 = 1%Z
  /\ truediv (outliers view_stats) (py_max_int (detected view_stats) 1)
     = Ok (PrimFloat.div (F64.of_Z (outliers view_stats)) 1%float)
  /\ exists color, cell_color self view_stats = Ok color.
Proof.
  intros Hn Hd. split; [by rewrite Hd|]. split.
  - rewrite outlier_rate_defined. by rewrite Hd.
  - unfold cell_color. rewrite truediv_ok by done; simpl.
    rewrite outlier_rate_defined; simpl. eauto.
Qed.

Lemma cell_color_zero_detections_witness :
  py_max_int 0 1 = 1%Z
  /\ truediv 0 (py_max_int 0 1) = Ok (PrimFloat.div (F64.of_Z 0) 1%float)
  /\ exists color,
       cell_color sample_view_model {| detected := 0; outliers := 0 |}
       = Ok color.
Proof.
  apply (cell_color_zero_detections sample_view_model
           {| detected := 0; outliers := 0 |}).
  - discriminate.
  - reflexivity.
Defined.

(** The colour of a view without detections on the sample model: the
    inlier colour at full luminance. *)
Example cell_color_no_detection :
  cell_color sample_view_model {| detected := 0; outliers := 0 |}
  = Ok {| hue := PrimFloat.div 1%float 3%float; saturation := 1%float;
          luminance := 1%float |}.
Proof. reflexivity. Qed.

(** * Further properties *)

(** ** Positions, multi-indices and slices *)

Lemma unravel_bounds sh k :
  k < size_of sh -> Forall2 lt (unravel sh k) sh.
Proof.
  revert k; induction sh as [|d sh IH]; intros k Hk; simpl; [constructor|].
  simpl in Hk. assert (size_of sh <> 0) by (intros E; rewrite E in Hk; lia).
  constructor.
  - apply Nat.Div0.div_lt_upper_bound. lia.
  - apply IH, Nat.mod_upper_bound; done.
Qed.

Lemma unravel_inj sh j j' :
  j < size_of sh -> j' < size_of sh ->
  unravel sh j = unravel sh j' -> j = j'.
Proof.
  revert j j'; induction sh as [|d sh IH]; intros j j' Hj Hj' E; simpl in *.
  - lia.
  - assert (size_of sh <> 0) by (intros E0; rewrite E0 in Hj; lia).
    injection E as Hq Hr.
    apply IH in Hr; [|by apply Nat.mod_upper_bound..].
    rewrite (Nat.div_mod_eq j (size_of sh)),
            (Nat.div_mod_eq j' (size_of sh)). congruence.
Qed.

Lemma unravel_surj sh idx :
  Forall2 lt idx sh -> exists j, j < size_of sh /\ unravel sh j = idx.
Proof.
  induction 1 as [|i d idx sh Hi _ (j & Hj & E)]; simpl.
  - exists 0. split; [lia|done].
  - exists (i * size_of sh + j). split; [nia|].
    rewrite Nat.div_add_l, Nat.div_small, Nat.add_0_r by lia.
    rewrite Nat.add_comm, Nat.Div0.mod_add, Nat.mod_small by lia.
    by rewrite E.
Qed.

Lemma drop_axes_Forall2 {X Y} (R : X -> Y -> Prop) axes i xs ys :
  Forall2 R xs ys -> Forall2 R (drop_axes axes i xs) (drop_axes axes i ys).
Proof.
  intros H; revert i; induction H as [|x y xs ys Hxy _ IH]; intros i; simpl;
    [constructor|].
  destruct (existsb (Nat.eqb i) axes); [apply IH|constructor; auto].
Qed.

(** Every position of an array lies in exactly one slice. *)
Lemma in_slice_unique axes sh k :
  k < size_of sh ->
  exists j0,
    j0 < size_of (drop_axes axes 0 sh)
    /\ forall j, j < size_of (drop_axes axes 0 sh) ->
                 (in_slice axes sh j k = true <-> j = j0).
Proof.
  intros Hk.
  destruct (unravel_surj (drop_axes axes 0 sh)
              (drop_axes axes 0 (unravel sh k))) as (j0 & Hj0 & E0).
  { by apply drop_axes_Forall2, unravel_bounds. }
  exists j0; split; [done|]. intros j Hj. unfold in_slice.
  rewrite bool_decide_eq_true. split.
  - intros E. apply (unravel_inj (drop_axes axes 0 sh)); congruence.
  - by intros ->.
Qed.

Lemma total_app (l k : list Z) : total (l ++ k) = (total l + total k)%Z.
Proof. induction l as [|x l IH]; simpl; lia. Qed.

Lemma total_fmap_add {A} (f g : A -> Z) (l : list A) :
  total ((fun x => f x + g x)%Z <$> l)
  = (total (f <$> l) + total (g <$> l))%Z.
Proof. induction l as [|x l IH]; csimpl; lia. Qed.

Lemma total_indicator_none (P : nat -> bool) (c : Z) (js : list nat) :
  (forall j, j ∈ js -> P j = false) ->
  total ((fun j => if P j then c else 0%Z) <$> js) = 0%Z.
Proof.
  induction js as [|j js IH]; intros HP; csimpl; [done|].
  rewrite (HP j) by left. rewrite IH; [done|].
  intros j' Hj'. apply HP. by right.
Qed.

Lemma total_indicator (P : nat -> bool) (c : Z) (js : list nat) j0 :
  NoDup js -> j0 ∈ js ->
  (forall j, j ∈ js -> (P j = true <-> j = j0)) ->
  total ((fun j => if P j then c else 0%Z) <$> js) = c.
Proof.
  induction 1 as [|j js Hj Hnd IH]; intros Hin HP; [by inversion Hin|].
  csimpl. destruct (decide (j = j0)) as [->|Hne].
  - rewrite (proj2 (HP j0 ltac:(left)) eq_refl).
    rewrite total_indicator_none; [lia|].
    intros j Hjs. destruct (P j) eqn:E; [|done].
    apply HP in E; [|by right]. by subst.
  - destruct (P j) eqn:E; [apply HP in E; [done|left]|].
    rewrite IH; [lia| |].
    + apply elem_of_cons in Hin as [->|]; done.
    + intros j' Hj'. apply HP. by right.
Qed.

Lemma select_from_total {A} (g : A -> Z) (P : nat -> nat -> bool)
    (js : list nat) i (l : list A) :
  NoDup js ->
  (forall k, i <= k < i + length l ->
     exists j0, j0 ∈ js /\ forall j, j ∈ js -> (P j k = true <-> j = j0)) ->
  total ((fun j => total (g <$> select_from (P j) i l)) <$> js)
  = total (g <$> l).
Proof.
  intros Hnd. revert i; induction l as [|x l IH]; intros i HP; csimpl.
  - clear. induction js as [|j js IHjs]; csimpl; [done|]. by rewrite IHjs.
  - destruct (HP i) as (j0 & Hj0 & Hu); [simpl; lia|].
    rewrite <- (IH (S i)) by (intros k Hk; apply HP; simpl; lia).
    rewrite <- (total_indicator (fun j => P j i) (g x) js j0 Hnd Hj0 Hu) at 1.
    rewrite <- total_fmap_add. f_equal.
    apply list_fmap_ext; intros _ j _; simpl. by destruct (P j i).
Qed.

(** Summing a quantity slice by slice and then over the slices gives its
    sum over the whole array. *)
Lemma slices_total {A} (g : A -> Z) axes (a : ndarray A) :
  wf_array a ->
  total ((fun s : list A => total (g <$> s)) <$> slices axes a)
  = total (g <$> data a).
Proof.
  intros Hwf. unfold slices, slice. rewrite <- list_fmap_compose.
  apply (select_from_total g (in_slice axes (shape a))); [apply NoDup_seq|].
  intros k Hk.
  destruct (in_slice_unique axes (shape a) k) as (j0 & Hj0 & Hu).
  { rewrite <- Hwf. lia. }
  exists j0. split; [apply elem_of_seq; lia|].
  intros j Hj. apply Hu. apply elem_of_seq in Hj. lia.
Qed.

Lemma count_true_total (l : list bool) : count_true l = total (Z.b2z <$> l).
Proof.
  unfold count_true. induction l as [|[] l IH]; csimpl in *; lia.
Qed.

(** ** Further properties of [reprojection_statistics] *)

Lemma select_from_Forall {A} (Q : A -> Prop) P i (l : list A) :
  Forall Q l -> Forall Q (select_from P i l).
Proof.
  intros H; revert i; induction H as [|x l Hx _ IH]; intros i; simpl;
    [constructor|].
  destruct (P i); [constructor|]; auto.
Qed.

Lemma slices_Forall {A} (Q : A -> Prop) axes (a : ndarray A) :
  Forall Q (data a) -> Forall (Forall Q) (slices axes a).
Proof.
  intros H. unfold slices. apply Forall_fmap, Forall_forall; intros j _.
  by apply select_from_Forall.
Qed.

Lemma count_outliers_bounds (l : list (bool * bool)) :
  (0 <= count_outliers l <= count_true l.*1)%Z.
Proof.
  unfold count_outliers, count_true.
  induction l as [|[[] []] l IH]; csimpl in *; lia.
Qed.

Lemma count_outliers_none (l : list (bool * bool)) :
  Forall (fun vi => vi.1 = true -> vi.2 = true) l -> count_outliers l = 0%Z.
Proof.
  unfold count_outliers. induction 1 as [|[[] []] l Hx _ IH]; simpl in *;
    try done.
  by specialize (Hx eq_refl).
Qed.

Lemma slices_np_pair_fst {A B} axes (a : ndarray A) (b : ndarray B) :
  length (data a) <= length (data b) ->
  (fun s : list (A * B) => s.*1) <$> slices axes (np_pair a b)
  = slices axes a.
Proof.
  intros Hlen. rewrite <- (slices_np_map fst). unfold np_map, np_pair; simpl.
  rewrite fst_zip by done. by destruct a.
Qed.

(** X1: every field of the table that [reprojection_statistics] returns
    has the shape of the axes that are not reduced, and holds one entry
    per slice. *)
Theorem reprojection_statistics_shapes error valid inlier axis axes :
  shape error = shape valid ->
  shape inlier = shape valid ->
  resolve_axes axis (ndim valid) = Ok axes ->
  exists t,
    reprojection_statistics error valid inlier axis = Ok t
    /\ Forall (fun a => shape a = drop_axes axes 0 (shape valid)
                        /\ wf_array a) (count_fields t)
    /\ Forall (fun a => shape a = drop_axes axes 0 (shape valid)
                        /\ wf_array a) (error_fields t).
Proof.
  intros He Hi Hax. eexists; split; [by apply reprojection_statistics_eq|].
  assert (Hl : length (slices axes error) = length (slices axes valid))
    by by apply slices_same_length.
  unfold count_fields, error_fields, wf_array; simpl.
  split; repeat constructor; simpl;
    rewrite ?length_fmap, ?length_zip_with, ?Hl, ?Nat.min_id, ?length_slices;
    done.
Qed.

Lemma reprojection_statistics_shapes_witness :
  exists t,
    reprojection_statistics error_10 valid_10 inlier_8_of_10 (Some [2%nat])
    = Ok t
    /\ Forall (fun a => shape a = [1; 1]%nat /\ wf_array a) (count_fields t)
    /\ Forall (fun a => shape a = [1; 1]%nat /\ wf_array a) (error_fields t).
Proof.
  exact (reprojection_statistics_shapes error_10 valid_10 inlier_8_of_10
           (Some [2%nat]) [2%nat] eq_refl eq_refl eq_refl).
Defined.

(** X2: in every slice the number of outliers is at least 0 and at most
    the number of detected points. *)
Theorem reprojection_statistics_outliers_le_detected
    error valid inlier axis axes :
  shape error = shape valid ->
  shape inlier = shape valid ->
  resolve_axes axis (ndim valid) = Ok axes ->
  length (data valid) <= length (data inlier) ->
  exists t,
    reprojection_statistics error valid inlier axis = Ok t
    /\ Forall2 (fun o d => (0 <= o <= d)%Z)
         (data (StatsTable.outliers t)) (data (StatsTable.detected t)).
Proof.
  intros He Hi Hax Hlen. eexists; split;
    [by apply reprojection_statistics_eq|]. simpl.
  rewrite <- (slices_np_pair_fst axes valid inlier Hlen).
  rewrite <- list_fmap_compose.
  apply Forall2_fmap, Forall_Forall2_diag, Forall_forall; intros s _.
  apply count_outliers_bounds.
Qed.

Lemma reprojection_statistics_outliers_le_detected_witness :
  exists t,
    reprojection_statistics error_10 valid_10 inlier_8_of_10 (Some [2%nat])
    = Ok t
    /\ Forall2 (fun o d => (0 <= o <= d)%Z)
         (data (StatsTable.outliers t)) (data (StatsTable.detected t)).
Proof.
  apply (reprojection_statistics_outliers_le_detected error_10 valid_10
           inlier_8_of_10 (Some [2%nat]) [2%nat]);
    first [reflexivity | simpl; lia].
Defined.

(** X3: when every valid point is an inlier, [outliers] is 0 in every
    slice. *)
Theorem reprojection_statistics_no_outliers
    error valid inlier axis axes :
  shape error = shape valid ->
  shape inlier = shape valid ->
  resolve_axes axis (ndim valid) = Ok axes ->
  Forall (fun vi : bool * bool => vi.1 = true -> vi.2 = true)
         (zip (data valid) (data inlier)) ->
  exists t,
    reprojection_statistics error valid inlier axis = Ok t
    /\ Forall (eq 0%Z) (data (StatsTable.outliers t)).
Proof.
  intros He Hi Hax Hvi. eexists; split;
    [by apply reprojection_statistics_eq|]. simpl.
  apply Forall_fmap.
  eapply Forall_impl; [apply (slices_Forall _ axes (np_pair valid inlier) Hvi)|].
  intros s Hs; simpl. by rewrite count_outliers_none.
Qed.

Lemma reprojection_statistics_no_outliers_witness :
  exists t,
    reprojection_statistics error_3_4 valid_1_0 inlier_1_1 None = Ok t
    /\ Forall (eq 0%Z) (data (StatsTable.outliers t)).
Proof.
  apply (reprojection_statistics_no_outliers error_3_4 valid_1_0 inlier_1_1
           None [0%nat]); try reflexivity.
  repeat constructor.
Defined.

Lemma count_outliers_total (l : list (bool * bool)) :
  count_outliers l
  = total ((fun vi : bool * bool => Z.b2z (vi.1 && negb vi.2)) <$> l).
Proof.
  unfold count_outliers. induction l as [|[[] []] l IH]; csimpl in *; lia.
Qed.

(** X4: the entries of [detected] add up to the number of valid points
    of the whole array, and those of [outliers] to its number of valid
    points that are not inliers: no point is lost or counted twice by
    the reduction, whatever the axis. *)
Theorem reprojection_statistics_totals error valid inlier axis axes :
  shape error = shape valid ->
  shape inlier = shape valid ->
  resolve_axes axis (ndim valid) = Ok axes ->
  wf_array valid ->
  wf_array inlier ->
  exists t,
    reprojection_statistics error valid inlier axis = Ok t
    /\ total (data (StatsTable.detected t)) = count_true (data valid)
    /\ total (data (StatsTable.outliers t))
       = count_outliers (zip (data valid) (data inlier)).
Proof.
  intros He Hi Hax Hv Hin. eexists; split;
    [by apply reprojection_statistics_eq|]. simpl. split.
  - rewrite count_true_total, <- (slices_total Z.b2z axes valid Hv).
    f_equal. apply list_fmap_ext; intros _ s _. apply count_true_total.
  - rewrite count_outliers_total.
    rewrite <- (slices_total _ axes (np_pair valid inlier)).
    + f_equal. apply list_fmap_ext; intros _ s _. apply count_outliers_total.
    + unfold wf_array, np_pair in *; simpl.
      rewrite length_zip_with. rewrite Hi in Hin. lia.
Qed.

Lemma reprojection_statistics_totals_witness :
  exists t,
    reprojection_statistics error_10 valid_10 inlier_8_of_10 (Some [1%nat])
    = Ok t
    /\ total (data (StatsTable.detected t)) = 10%Z
    /\ total (data (StatsTable.outliers t)) = 2%Z.
Proof.
  exact (reprojection_statistics_totals error_10 valid_10 inlier_8_of_10
           (Some [1%nat]) [1%nat] eq_refl eq_refl eq_refl eq_refl eq_refl).
Defined.

(** ** Further properties of [masked_quantile] *)

Lemma nan_filled_full_mask (error : list float) (mask : list bool) :
  length error <= length mask ->
  Forall (eq true) mask ->
  zip_with (fun x (m : bool) => if m then F64.nan else x)
           error (negb <$> mask)
  = error.
Proof.
  intros Hlen H; revert error Hlen.
  induction H as [|m mask <- _ IH]; intros [|x error] Hlen; simpl in *;
    try done; [lia|].
  rewrite IH; [done|lia].
Qed.

(** X5: with a mask that is true everywhere, [masked_quantile] returns
    what [np.nanquantile] returns on the error array itself. *)
Theorem masked_quantile_full_mask error mask qs axis :
  shape mask = shape error ->
  length (data error) <= length (data mask) ->
  Forall (eq true) (data mask) ->
  masked_quantile error mask qs axis = Np.nanquantile error qs axis.
Proof.
  intros Hsh Hlen Hm. unfold masked_quantile, setitem_mask, Np.invert; simpl.
  rewrite Hsh, bool_decide_eq_true_2 by done; simpl.
  rewrite nan_filled_full_mask by done. by destruct error.
Qed.

Lemma masked_quantile_full_mask_witness :
  masked_quantile error_3_4 inlier_1_1 five_quantiles None
  = Np.nanquantile error_3_4 five_quantiles None.
Proof.
  apply (masked_quantile_full_mask error_3_4 inlier_1_1 five_quantiles None).
  - reflexivity.
  - simpl. lia.
  - repeat constructor.
Defined.

(** ** Properties of [detection_tables] *)

Lemma sum_bool_counts valid axis axes :
  resolve_axes axis (ndim valid) = Ok axes ->
  Np.sum_bool valid axis = Ok (counts_along axes valid).
Proof.
  intros Hax. unfold Np.sum_bool. rewrite (reduce_ok _ axis axes) by done.
  unfold counts_along. do 2 f_equal.
  apply list_fmap_ext; intros _ s _. apply count_sum_spec.
Qed.

Lemma resolve_axes_some axes nd :
  Forall (fun i => i < nd) axes -> NoDup axes ->
  resolve_axes (Some axes) nd = Ok axes.
Proof.
  intros Hlt Hnd. unfold resolve_axes.
  rewrite bool_decide_eq_true_2 by done.
  assert (forallb (fun i => i <? nd) axes = true) as ->; [|done].
  apply forallb_forall. intros i Hi. apply Nat.ltb_lt.
  rewrite Forall_forall in Hlt. by apply Hlt, list_elem_of_In.
Qed.

Lemma counts_along_total axes valid :
  wf_array valid -> total (data (counts_along axes valid)) = count_true (data valid).
Proof.
  intros Hwf. simpl.
  rewrite count_true_total, <- (slices_total Z.b2z axes valid Hwf).
  f_equal. apply list_fmap_ext; intros _ s _. apply count_true_total.
Qed.

Lemma detection_tables_eq valid :
  4 <= ndim valid ->
  detection_tables valid
  = Ok {| DetectionTables.overall := counts_along (seq 0 (ndim valid)) valid;
          DetectionTables.views := counts_along [2; 3] valid;
          DetectionTables.cameras := counts_along [1; 2; 3] valid;
          DetectionTables.frames := counts_along [0; 2; 3] valid;
          DetectionTables.boards := counts_along [0; 1; 3] valid |}.
Proof.
  intros Hnd. unfold detection_tables.
  assert (Hax : forall axes, Forall (fun i => i < 4) axes -> NoDup axes ->
            Np.sum_bool valid (Some axes) = Ok (counts_along axes valid)).
  { intros axes Hlt Hnodup. apply sum_bool_counts, resolve_axes_some; [|done].
    eapply Forall_impl; [exact Hlt|]. intros i Hi; simpl in *. lia. }
  rewrite (sum_bool_counts valid None (seq 0 (ndim valid))) by done; simpl.
  rewrite !Hax; [done|..];
    first [ by repeat (constructor; [lia|])
          | by apply (bool_decide_unpack _); vm_compute ].
Qed.

(** X6: on a mask of shape (cameras, frames, boards, points),
    [detection_tables] returns a scalar, a cameras x frames table, and
    one table each over the cameras, the frames and the boards; each of
    them holds the number of detected points of its slices, and the
    entries of each add up to the number of detected points of the whole
    mask. *)
Theorem detection_tables_shapes_totals valid C F B P :
  shape valid = [C; F; B; P] ->
  wf_array valid ->
  exists t,
    detection_tables valid = Ok t
    /\ shape (DetectionTables.overall t) = []
    /\ shape (DetectionTables.views t) = [C; F]
    /\ shape (DetectionTables.cameras t) = [C]
    /\ shape (DetectionTables.frames t) = [F]
    /\ shape (DetectionTables.boards t) = [B]
    /\ DetectionTables.views t = counts_along [2; 3] valid
    /\ Forall (fun a => total (data a) = count_true (data valid))
         [DetectionTables.overall t; DetectionTables.views t;
          DetectionTables.cameras t; DetectionTables.frames t;
          DetectionTables.boards t].
Proof.
  intros Hsh Hwf. eexists; split.
  { apply detection_tables_eq. unfold ndim. rewrite Hsh. simpl. lia. }
  simpl. unfold ndim. rewrite Hsh; simpl.
  repeat split; try done.
  repeat constructor; by apply counts_along_total.
Qed.

Lemma detection_tables_shapes_totals_witness :
  exists t,
    detection_tables valid_2x2x1x2 = Ok t
    /\ shape (DetectionTables.overall t) = []
    /\ shape (DetectionTables.views t) = [2; 2]
    /\ shape (DetectionTables.cameras t) = [2]
    /\ shape (DetectionTables.frames t) = [2]
    /\ shape (DetectionTables.boards t) = [1]
    /\ DetectionTables.views t = counts_along [2; 3] valid_2x2x1x2
    /\ Forall (fun a => total (data a) = count_true (data valid_2x2x1x2))
         [DetectionTables.overall t; DetectionTables.views t;
          DetectionTables.cameras t; DetectionTables.frames t;
          DetectionTables.boards t].
Proof.
  exact (detection_tables_shapes_totals valid_2x2x1x2 2 2 1 2
           eq_refl eq_refl).
Defined.

Example detection_tables_sample :
  detection_tables valid_2x2x1x2
  = Ok {| DetectionTables.overall := NDArray [] [4%Z];
          DetectionTables.views := NDArray [2; 2]%nat [1; 2; 0; 1]%Z;
          DetectionTables.cameras := NDArray [2%nat] [3; 1]%Z;
          DetectionTables.frames := NDArray [2%nat] [1; 3]%Z;
          DetectionTables.boards := NDArray [1%nat] [4%Z] |}.
Proof. reflexivity. Qed.

(** X7: [detection_tables] returns exactly when the mask has at least
    four axes; on a mask with fewer axes the reduction over axis 3
    raises [AxisError]. *)
Theorem detection_tables_needs_four_axes valid :
  (4 <= ndim valid -> exists t, detection_tables valid = Ok t)
  /\ (ndim valid < 4 -> detection_tables valid = Raise AxisError).
Proof.
  split.
  - intros H. eexists. by apply detection_tables_eq.
  - intros H. unfold detection_tables, Np.sum_bool, reduce, ndim in *.
    destruct (shape valid) as [|c [|f [|b [|p sh]]]]; simpl in *;
      try done; lia.
Qed.

(** ** [reprojection_tables]: four statistics of the same arrays *)

Section TablesFacts.
Implicit Types (h : gmap Store.loc Store.obj).

(** A call of [reprojection_statistics] that returns has read three
    arrays, returns their statistics, and leaves them in place for the
    next call. *)
Lemma reprojection_statistics_store_ok h error valid inlier axis t h' :
  Store.reprojection_statistics error valid inlier axis h = (Ok t, h') ->
  exists E V I,
    h !! error = Some (Store.FloatArray E)
    /\ h !! valid = Some (Store.BoolArray V)
    /\ h !! inlier = Some (Store.BoolArray I)
    /\ reprojection_statistics E V I axis = Ok t
    /\ h ⊆ h'.
Proof.
  intros Hrun.
  pose proof (preserves_reprojection_statistics error valid inlier axis h)
    as Hsub. rewrite Hrun in Hsub; simpl in Hsub.
  assert (exists V, h !! valid = Some (Store.BoolArray V)) as [V HV].
  { unfold Store.reprojection_statistics in Hrun.
    unfold Store.bind at 1, Store.load_bool at 1 in Hrun.
    destruct (h !! valid) as [[| |]|]; try done. eauto. }
  assert (exists E, h !! error = Some (Store.FloatArray E)) as [E HE].
  { unfold Store.reprojection_statistics in Hrun.
    unfold Store.bind at 1, Store.load_bool at 1 in Hrun. rewrite HV in Hrun.
    unfold Store.bind at 1, Store.lift at 1 in Hrun.
    destruct (Np.sum_bool V axis); [|done].
    unfold Store.bind at 1, Store.load_float at 1 in Hrun.
    destruct (h !! error) as [[| |]|]; try done. eauto. }
  assert (exists I, h !! inlier = Some (Store.BoolArray I)) as [I HI].
  { unfold Store.reprojection_statistics in Hrun.
    unfold Store.bind at 1, Store.load_bool at 1 in Hrun. rewrite HV in Hrun.
    unfold Store.bind at 1, Store.lift at 1 in Hrun.
    destruct (Np.sum_bool V axis); [|done].
    unfold Store.bind at 1, Store.load_float at 1 in Hrun. rewrite HE in Hrun.
    unfold Store.bind at 1, Store.lift at 1 in Hrun.
    destruct (Np.sum (Np.square E) axis); [|done].
    unfold Store.bind at 1, Store.lift at 1 in Hrun.
    destruct (Np.true_divide _ _); [|done].
    unfold Store.bind at 1, Store.load_bool at 1 in Hrun.
    destruct (h !! inlier) as [[| |]|]; try done. eauto. }
  exists E, V, I. repeat split; try done.
  rewrite <- (reprojection_statistics_store_value h error valid inlier E V I)
    by done.
  by rewrite Hrun.
Qed.

Lemma reprojection_statistics_next h error valid inlier axis t h' E V I :
  h !! error = Some (Store.FloatArray E) ->
  h !! valid = Some (Store.BoolArray V) ->
  h !! inlier = Some (Store.BoolArray I) ->
  Store.reprojection_statistics error valid inlier axis h = (Ok t, h') ->
  reprojection_statistics E V I axis = Ok t
  /\ h' !! error = Some (Store.FloatArray E)
  /\ h' !! valid = Some (Store.BoolArray V)
  /\ h' !! inlier = Some (Store.BoolArray I).
Proof.
  intros HE HV HI Hrun.
  apply reprojection_statistics_store_ok in Hrun
    as (E' & V' & I' & HE' & HV' & HI' & Ht & Hsub).
  simplify_eq. repeat split; try done; by eapply lookup_weaken.
Qed.

(** X8: when [reprojection_tables] returns, its four tables are the
    statistics of one and the same error array, validity mask and inlier
    mask, reduced over no axis in particular (overall), over axis 2
    (views), over axes 1 and 2 (cameras) and over axes 0 and 2 (frames);
    the inlier mask is the one [calib.inliers] held before the call. *)
Theorem reprojection_tables_same_arrays calib inlier_only h t :
  (Store.reprojection_tables calib inlier_only h).1 = Ok t ->
  exists E V I,
    reprojection_statistics E V I None = Ok (Store.overall t)
    /\ reprojection_statistics E V I (Some [2%nat]) = Ok (Store.views t)
    /\ reprojection_statistics E V I (Some [1%nat; 2%nat])
       = Ok (Store.cameras t)
    /\ reprojection_statistics E V I (Some [0%nat; 2%nat])
       = Ok (Store.frames t)
    /\ (forall I0, h !! Store.inliers calib = Some (Store.BoolArray I0) ->
                   I = I0).
Proof.
  unfold Store.reprojection_tables. intros Hrun.
  unfold Store.bind at 1 in Hrun.
  match type of Hrun with
  | context [if inlier_only then ?a else ?b] =>
      pose proof (fun H1 H2 => preserves_bind
                    (if inlier_only then a else b) (fun x => Store.ret x)
                    H1 H2 h) as Hsub0
  end.
  match type of Hrun with
  | context [(if inlier_only then ?a else ?b) h] =>
      destruct ((if inlier_only then a else b) h) as [[pt|] h0] eqn:H0;
        [|done]
  end.
  assert (h ⊆ h0) as Hh0.
  { clear Hsub0 Hrun. destruct inlier_only.
    - pose proof (preserves_Table_extend (Store.point_table calib)
                    "valid_points" (Store.inliers calib) h) as Hp.
      by rewrite H0 in Hp.
    - unfold Store.ret in H0. by simplify_eq. }
  clear Hsub0.
  unfold Store.bind at 1 in Hrun.
  pose proof (preserves_reprojection_error (Store.projected calib) pt h0)
    as Hh1.
  destruct (Store.reprojection_error (Store.projected calib) pt h0)
    as [[[error valid]|] h1]; [|done]. simpl in Hh1.
  unfold Store.bind at 1 in Hrun.
  destruct (Store.reprojection_statistics error valid (Store.inliers calib)
              None h1) as [[o|] h2] eqn:R1; [|done].
  apply reprojection_statistics_store_ok in R1
    as (E & V & I & HE & HV & HI & Ho & Hh2).
  unfold Store.bind at 1 in Hrun.
  destruct (Store.reprojection_statistics error valid (Store.inliers calib)
              (Some [2%nat]) h2) as [[vw|] h3] eqn:R2; [|done].
  eapply reprojection_statistics_next in R2
    as (Hvw & HE3 & HV3 & HI3); [|by eapply lookup_weaken..].
  unfold Store.bind at 1 in Hrun.
  destruct (Store.reprojection_statistics error valid (Store.inliers calib)
              (Some [1%nat; 2%nat]) h3) as [[cm|] h4] eqn:R3; [|done].
  eapply reprojection_statistics_next in R3
    as (Hcm & HE4 & HV4 & HI4); [|done..].
  unfold Store.bind at 1 in Hrun.
  destruct (Store.reprojection_statistics error valid (Store.inliers calib)
              (Some [0%nat; 2%nat]) h4) as [[fr|] h5] eqn:R4; [|done].
  eapply reprojection_statistics_next in R4
    as (Hfr & _ & _ & _); [|done..].
  simpl in Hrun. simplify_eq. simpl.
  exists E, V, I. repeat split; try done.
  intros I0 HI0.
  assert (h ⊆ h1) as Hh by by etrans.
  rewrite (lookup_weaken _ _ _ _ HI0 Hh) in HI. by simplify_eq.
Qed.

End TablesFacts.

Lemma reprojection_tables_same_arrays_witness :
  exists t,
    (Store.reprojection_tables sample_calib true sample_heap).1 = Ok t
    /\ exists E V I,
         reprojection_statistics E V I None = Ok (Store.overall t)
         /\ reprojection_statistics E V I (Some [2%nat]) = Ok (Store.views t)
         /\ reprojection_statistics E V I (Some [1%nat; 2%nat])
            = Ok (Store.cameras t)
         /\ reprojection_statistics E V I (Some [0%nat; 2%nat])
            = Ok (Store.frames t)
         /\ (forall I0,
               sample_heap !! Store.inliers sample_calib
               = Some (Store.BoolArray I0) -> I = I0).
Proof.
  eexists. split; [reflexivity|].
  apply (reprojection_tables_same_arrays sample_calib true sample_heap).
  reflexivity.
Defined.

(** ** Properties of the table models *)

Lemma py_max_not_below (a b : float) :
  PrimFloat.ltb b b = false -> PrimFloat.ltb (py_max a b) b = false.
Proof.
  intros Hb. unfold py_max. by destruct (PrimFloat.ltb a b) eqn:E.
Qed.

Lemma py_min_not_above (a b : float) :
  PrimFloat.ltb b b = false -> PrimFloat.ltb b (py_min a b) = false.
Proof.
  intros Hb. unfold py_min. by destruct (PrimFloat.ltb b a) eqn:E.
Qed.

(** X9: the colour [ViewModelCalibrated.cell_color] returns is never
    darker than luminance 0.7: "luminance < 0.7" is false of it. *)
Theorem cell_color_luminance (self : ViewModelCalibrated)
    (view_stats : ViewStats) (color : Color) :
  cell_color self view_stats = Ok color ->
  PrimFloat.ltb (luminance color) 0.7%float = false.
Proof.
  unfold cell_color. intros H.
  destruct (truediv (detected view_stats) (num_points self)); [|done].
  simpl in H. destruct (truediv _ _); [|done]. simpl in H.
  injection H as <-. simpl. by apply py_max_not_below.
Qed.

Lemma cell_color_luminance_witness :
  PrimFloat.ltb
    (luminance {| hue := PrimFloat.div 1%float 3%float;
                  saturation := 1%float; luminance := 1%float |})
    0.7%float = false.
Proof.
  apply (cell_color_luminance sample_view_model
           {| detected := 0; outliers := 0 |}).
  reflexivity.
Defined.

Section ViewModelFacts.
Import ViewModel.

Lemma getitem_spec {A} (l : list A) (i : Z) :
  match getitem l i with
  | Done x =>
      (- Z.of_nat (length l) <= i < Z.of_nat (length l))%Z
      /\ l !! position l i = Some x
  | Failed e =>
      ~ (- Z.of_nat (length l) <= i < Z.of_nat (length l))%Z
      /\ e = IndexError
  end.
Proof.
  unfold getitem, position.
  destruct (Z.ltb_spec i 0) as [Hi|Hi].
  - destruct (Z.ltb_spec (i + Z.of_nat (length l)) 0) as [Hk|Hk];
      [split; [lia|done]|].
    destruct (l !! Z.to_nat (i + Z.of_nat (length l))) as [x|] eqn:E.
    + split; [lia|done].
    + apply lookup_ge_None in E. lia.
  - destruct (Z.ltb_spec i 0); [lia|].
    destruct (l !! Z.to_nat i) as [x|] eqn:E.
    + apply lookup_lt_Some in E. split; [lia|done].
    + apply lookup_ge_None in E. split; [lia|done].
Qed.

Lemma existsb_eqb_elem (s : string) (l : list string) :
  existsb (String.eqb s) l = true <-> s ∈ l.
Proof.
  rewrite existsb_exists. split.
  - intros (x & Hx & E). apply String.eqb_eq in E as ->.
    by apply list_elem_of_In.
  - intros H. exists s. split; [by apply list_elem_of_In|].
    apply String.eqb_refl.
Qed.

(** X10: [set_metric] returns exactly on the arguments it accepts: the
    name of a metric, or an index [i] with [-n <= i < n] for [n]
    metrics.  It then makes a key of [metrics] the current metric,
    stores [inlier_only], emits [modelReset] once and leaves [metrics]
    as it is.  Otherwise it raises [IndexError] on an index and
    [AssertionError] on a name or a value of another type. *)
Theorem set_metric_outcome self m b :
  match set_metric self m b with
  | Done self' =>
      accepts self m
      /\ metric self' ∈ keys self
      /\ metrics self' = metrics self
      /\ inlier_only self' = b
      /\ resets self' = S (resets self)
  | Failed e =>
      ~ accepts self m
      /\ e = match m with Index _ => IndexError | _ => AssertionError end
  end.
Proof.
  destruct m as [s|i|]; simpl.
  - destruct (existsb (String.eqb s) (keys self)) eqn:E.
    + apply existsb_eqb_elem in E. by repeat split.
    + split; [|done]. intros H. apply existsb_eqb_elem in H. congruence.
  - pose proof (getitem_spec (keys self) i) as H.
    destruct (getitem (keys self) i) as [name|e]; simpl.
    + destruct H as [Hi Hl]. repeat split; try done; try lia.
      by eapply list_elem_of_lookup_2.
    + destruct H as [Hi ->]. split; [|done]. intros H. by apply Hi.
  - split; [tauto|done].
Qed.

Lemma lookup_label_nth (d : list (string * string)) k key label :
  NoDup d.*1 -> d !! k = Some (key, label) ->
  lookup_label d key = Some label.
Proof.
  revert k; induction d as [|[k0 v0] d IH]; intros k Hnd Hk; [done|].
  apply NoDup_cons in Hnd as [Hk0 Hnd]. simpl.
  destruct k as [|k]; simpl in Hk.
  - injection Hk as -> ->. by rewrite String.eqb_refl.
  - destruct (String.eqb_spec k0 key) as [->|Hne]; [|by eapply IH].
    exfalso. apply Hk0. apply list_elem_of_fmap.
    exists (key, label). split; [done|]. by eapply list_elem_of_lookup_2.
Qed.

(** X11: selecting a metric by its index selects the metric whose label
    stands at that position of [metric_labels] (for a negative index,
    counted from the end). *)
Theorem set_metric_index_label self i b :
  NoDup (keys self) ->
  (- Z.of_nat (length (keys self)) <= i < Z.of_nat (length (keys self)))%Z ->
  exists self',
    set_metric self (Index i) b = Done self'
    /\ keys self !! position (keys self) i = Some (metric self')
    /\ lookup_label (metrics self) (metric self')
       = metric_labels self !! position (keys self) i.
Proof.
  intros Hnd Hi. simpl.
  pose proof (getitem_spec (keys self) i) as H.
  destruct (getitem (keys self) i) as [name|e]; [|by destruct H].
  destruct H as [_ Hl]. eexists; split; [done|]. simpl. split; [done|].
  unfold keys, metric_labels in *.
  rewrite list_lookup_fmap in Hl. rewrite list_lookup_fmap.
  destruct (metrics self !! position (metrics self).*1 i)
    as [[key label]|] eqn:E; [|done].
  simpl in *. injection Hl as ->. by eapply lookup_label_nth.
Qed.

Lemma set_metric_index_label_witness :
  exists self',
    set_metric calibrated_init (Index (-2)) true = Done self'
    /\ keys calibrated_init !! 4%nat = Some (metric self')
    /\ lookup_label (metrics calibrated_init) (metric self')
       = metric_labels calibrated_init !! 4%nat.
Proof.
  apply (set_metric_index_label calibrated_init (-2) true).
  - by apply (bool_decide_unpack _); vm_compute.
  - simpl. lia.
Defined.

Example set_metric_last :
  set_metric calibrated_init (Index (-1)) true
  = Done {| metrics := metrics calibrated_init; metric := "mse";
            inlier_only := true; resets := 1 |}.
Proof. reflexivity. Qed.

Example set_metric_out_of_range :
  set_metric calibrated_init (Index 6) false = Failed IndexError.
Proof. reflexivity. Qed.

Example set_metric_unknown_name :
  set_metric calibrated_init (Name "total") false = Failed AssertionError.
Proof. reflexivity. Qed.

(** X12: [ViewModelDetections.cell_color] returns the colour object of
    the model itself.  After two calls both results are this one object,
    which has the luminance of the second call, never below 0.7, and
    the hue and saturation it had; every other colour is as it was. *)
Theorem detections_cell_color_shared self n1 n2 (h : gmap positive Color)
    c q3 :
  h !! colors_detected self = Some c ->
  quantiles self !! 3%nat = Some q3 ->
  let r1 := ViewModel.cell_color self n1 h in
  let r2 := ViewModel.cell_color self n2 r1.2 in
  let l2 :=
    py_max (PrimFloat.sub 1%float
              (py_min (PrimFloat.div (F64.of_Z n2) q3) 1%float))
           0.7%float in
  r1.1 = Done (colors_detected self)
  /\ r2.1 = Done (colors_detected self)
  /\ r2.2 !! colors_detected self
     = Some {| hue := hue c; saturation := saturation c; luminance := l2 |}
  /\ PrimFloat.ltb l2 0.7%float = false
  /\ (forall l, l <> colors_detected self -> r2.2 !! l = h !! l).
Proof.
  intros Hc Hq r1 r2 l2. subst r1 r2. unfold ViewModel.cell_color.
  rewrite Hq; simpl. repeat split.
  - rewrite !lookup_alter_eq, Hc. done.
  - by apply py_max_not_below.
  - intros l Hl. by rewrite !lookup_alter_ne.
Qed.

End ViewModelFacts.

Lemma detections_cell_color_shared_witness :
  let r1 := ViewModel.cell_color sample_detections 1 sample_colors in
  let r2 := ViewModel.cell_color sample_detections 8 r1.2 in
  let l2 :=
    py_max (PrimFloat.sub 1%float
              (py_min (PrimFloat.div (F64.of_Z 8) 4%float) 1%float))
           0.7%float in
  r1.1 = ViewModel.Done 1%positive
  /\ r2.1 = ViewModel.Done 1%positive
  /\ r2.2 !! 1%positive
     = Some {| hue := PrimFloat.div 1%float 3%float; saturation := 1%float;
               luminance := l2 |}
  /\ PrimFloat.ltb l2 0.7%float = false
  /\ (forall l, l <> 1%positive -> r2.2 !! l = sample_colors !! l).
Proof.
  apply (detections_cell_color_shared sample_detections 1 8 sample_colors
           {| hue := PrimFloat.div 1%float 3%float; saturation := 1%float;
              luminance := 0.5%float |} 4%float); reflexivity.
Defined.

(** ** Properties of viewer_3d/moving_cameras.py *)

Section MovingCamerasFacts.
Context {View : Type}.
Context (View_set_color : float * float * float -> View -> View).
Context (View_set_scale : float -> View -> View).
Context (View_show : bool -> View -> View).
Implicit Types (h : gmap positive View) (l : positive).
Implicit Types (views : list (list (option positive))).

Local Abbreviation update_row := (update_row View View_set_color View_set_scale).
Local Abbreviation update_rows :=
  (update_rows View View_set_color View_set_scale).

Lemma valid_views_cons (fv : list (option positive)) views :
  valid_views (fv :: views) = omap id fv ++ valid_views views.
Proof. unfold valid_views; simpl. apply omap_app. Qed.

Lemma elem_of_omap_id (fv : list (option positive)) l :
  l ∈ omap id fv <-> Some l ∈ fv.
Proof.
  rewrite list_elem_of_omap. split.
  - intros (o & Ho & E). simpl in E. by subst.
  - intros H. by exists (Some l).
Qed.

Lemma update_row_other state i j fv h l :
  Some l ∉ fv -> update_row state i j fv h !! l = h !! l.
Proof.
  revert j h; induction fv as [|view fv IH]; intros j h Hl; simpl; [done|].
  apply not_elem_of_cons in Hl as [Hne Hl]. rewrite IH by done.
  destruct view as [l'|]; [|done].
  rewrite !lookup_alter_ne by congruence. done.
Qed.

Lemma update_row_at state i j0 fv h j l :
  NoDup (omap id fv) -> fv !! j = Some (Some l) ->
  update_row state i j0 fv h !! l
  = (fun v => View_set_scale (state_scale state)
                (View_set_color (marker_color state i (j0 + j)) v))
    <$> h !! l.
Proof.
  revert j0 j h; induction fv as [|view fv IH]; intros j0 j h Hnd Hj;
    [done|]. simpl.
  destruct j as [|j]; simpl in Hj.
  - injection Hj as ->. simpl in Hnd. apply NoDup_cons in Hnd as [Hl _].
    rewrite update_row_other by (by rewrite <- elem_of_omap_id).
    rewrite !lookup_alter_eq, Nat.add_0_r.
    by destruct (h !! l).
  - assert (NoDup (omap id fv) /\ view <> Some l) as [Hnd' Hne].
    { destruct view as [l'|]; simpl in Hnd; [|done].
      apply NoDup_cons in Hnd as [Hl' Hnd]. split; [done|].
      intros [= ->]. apply Hl', elem_of_omap_id.
      by eapply list_elem_of_lookup_2. }
    rewrite (IH (S j0) j) by done.
    replace (S j0 + j) with (j0 + S j) by lia.
    destruct view as [l'|]; [|done].
    rewrite !lookup_alter_ne by congruence. done.
Qed.

Lemma update_rows_other state i views h l :
  l ∉ valid_views views -> update_rows state i views h !! l = h !! l.
Proof.
  revert i h; induction views as [|fv views IH]; intros i h Hl; simpl;
    [done|].
  rewrite valid_views_cons in Hl. apply not_elem_of_app in Hl as [Hfv Hl].
  rewrite IH by done. apply update_row_other.
  by rewrite <- elem_of_omap_id.
Qed.

Lemma update_rows_at state i0 views h i fv j l :
  NoDup (valid_views views) ->
  views !! i = Some fv -> fv !! j = Some (Some l) ->
  update_rows state i0 views h !! l
  = (fun v => View_set_scale (state_scale state)
                (View_set_color (marker_color state (i0 + i) j) v))
    <$> h !! l.
Proof.
  revert i0 i h; induction views as [|fv0 views IH]; intros i0 i h Hnd Hi Hj;
    [done|]. simpl.
  rewrite valid_views_cons in Hnd. apply NoDup_app in Hnd as (Hnd0 & Hdisj & Hnd).
  destruct i as [|i]; simpl in Hi.
  - injection Hi as ->.
    assert (l ∈ omap id fv) as Hl
      by (apply elem_of_omap_id; by eapply list_elem_of_lookup_2).
    rewrite update_rows_other by (by apply Hdisj).
    rewrite (update_row_at _ _ 0 _ _ j) by done. by rewrite Nat.add_0_r.
  - rewrite (IH (S i0) i) by done.
    replace (S i0 + i) with (i0 + S i) by lia.
    rewrite update_row_other; [done|].
    intros Hin. apply elem_of_omap_id in Hin. apply (Hdisj l Hin).
    unfold valid_views. apply elem_of_omap_id.
    apply list_elem_of_In, in_concat. exists fv. split.
    + apply list_elem_of_In. by eapply list_elem_of_lookup_2.
    + apply list_elem_of_In. by eapply list_elem_of_lookup_2.
Qed.

(** X13: when no marker occurs twice in [views], [update] gives the
    marker at row [i] (the frame) and column [j] (the camera) the scale
    of the state and the colour of its place: (1, 1, 0) at the frame and
    the camera of the state, (0.5, 1, 0) at the other cameras of that
    frame, (0.5, 0.5, 0.5) elsewhere.  Markers outside [views] are not
    touched, and the viewer is redrawn once. *)
Theorem MovingCameras_update_spec views state (sc : scene View) :
  NoDup (valid_views views) ->
  let sc' :=
    MovingCameras_update View View_set_color View_set_scale views state sc in
  redraws sc' = S (redraws sc)
  /\ board_visible sc' = board_visible sc
  /\ (forall i fv j l,
        views !! i = Some fv -> fv !! j = Some (Some l) ->
        objs sc' !! l
        = (fun v => View_set_scale (state_scale state)
                      (View_set_color (marker_color state i j) v))
          <$> objs sc !! l)
  /\ (forall l, l ∉ valid_views views -> objs sc' !! l = objs sc !! l).
Proof.
  intros Hnd sc'. repeat split; try done.
  - intros i fv j l Hi Hj. subst sc'; simpl.
    by rewrite (update_rows_at state 0 views _ i fv j l).
  - intros l Hl. by apply update_rows_other.
Qed.

Lemma foldl_alter_lookup (f : View -> View) (ls : list positive) h l :
  NoDup ls ->
  foldl (fun h view => alter f view h) h ls !! l
  = if decide (l ∈ ls) then f <$> h !! l else h !! l.
Proof.
  revert h; induction ls as [|l0 ls IH]; intros h Hnd; simpl; [done|].
  apply NoDup_cons in Hnd as [Hl0 Hnd]. rewrite IH by done.
  destruct (decide (l = l0)) as [->|Hne].
  - rewrite decide_False, decide_True by (done || left).
    by rewrite lookup_alter_eq.
  - rewrite lookup_alter_ne by done.
    destruct (decide (l ∈ ls)) as [Hin|Hin].
    + by rewrite decide_True by (by right).
    + rewrite decide_False; [done|]. by apply not_elem_of_cons.
Qed.

(** X14: when no marker occurs twice in [views], [enable] shows the
    board and every marker of [views], then colours and scales each
    marker as [update] does; [disable] hides the board and every marker
    of [views] and does not redraw.  Neither touches a marker outside
    [views]. *)
Theorem MovingCameras_enable_disable views state (sc : scene View) :
  NoDup (valid_views views) ->
  let on :=
    MovingCameras_enable View View_set_color View_set_scale View_show
      views state sc in
  let off := MovingCameras_disable View View_show views sc in
  board_visible on = true
  /\ redraws on = S (redraws sc)
  /\ (forall i fv j l,
        views !! i = Some fv -> fv !! j = Some (Some l) ->
        objs on !! l
        = (fun v => View_set_scale (state_scale state)
                      (View_set_color (marker_color state i j)
                         (View_show true v)))
          <$> objs sc !! l)
  /\ board_visible off = false
  /\ redraws off = redraws sc
  /\ (forall l, l ∈ valid_views views ->
                objs off !! l = View_show false <$> objs sc !! l)
  /\ (forall l, l ∉ valid_views views ->
                objs on !! l = objs sc !! l /\ objs off !! l = objs sc !! l).
Proof.
  intros Hnd on off. subst on off.
  unfold MovingCameras_enable, MovingCameras_disable. repeat split; try done.
  - intros i fv j l Hi Hj; simpl.
    rewrite (update_rows_at state 0 views _ i fv j l) by done.
    rewrite foldl_alter_lookup by done.
    rewrite decide_True.
    + by destruct (objs sc !! l).
    + unfold valid_views. apply elem_of_omap_id, list_elem_of_In, in_concat.
      exists fv. split; apply list_elem_of_In;
        by eapply list_elem_of_lookup_2.
  - intros l Hl; simpl. rewrite foldl_alter_lookup by done.
    by rewrite decide_True.
  - simpl. rewrite update_rows_other by done.
    rewrite foldl_alter_lookup by done. by rewrite decide_False.
  - simpl. rewrite foldl_alter_lookup by done. by rewrite decide_False.
Qed.

End MovingCamerasFacts.

(** *** The slices of a two-dimensional table along its second axis *)

Lemma select_from_ext {A} (P Q : nat -> bool) i (l : list A) :
  (forall k, P k = Q k) -> select_from P i l = select_from Q i l.
Proof.
  intros H; revert i; induction l as [|x l IH]; intros i; simpl; [done|].
  by rewrite H, IH.
Qed.

Lemma add_mod_not_fixed F i d :
  0 < d < F -> (i + d) mod F <> i mod F.
Proof.
  intros Hd E. rewrite <- Nat.Div0.add_mod_idemp_l in E.
  pose proof (Nat.mod_upper_bound i F ltac:(lia)) as Hi.
  set (j := i mod F) in *.
  destruct (decide (j + d < F)) as [Hlt|Hge].
  - rewrite Nat.mod_small in E by done. lia.
  - replace (j + d) with ((j + d - F) + 1 * F) in E by lia.
    rewrite Nat.Div0.mod_add, Nat.mod_small in E by lia. lia.
Qed.

(** The entries at the positions congruent to [j] modulo [F]: entry [c]
    is the one at position [c * F + j]. *)
Lemma select_from_stride {A} F j i d (l : list A) c :
  d < F -> (i + d) mod F = j ->
  select_from (fun k => bool_decide (k mod F = j)) i l !! c
  = l !! (d + c * F).
Proof.
  revert i d c; induction l as [|x l IH]; intros i d c Hd Hj; [done|].
  simpl. destruct d as [|d].
  - rewrite Nat.add_0_r in Hj. rewrite bool_decide_eq_true_2 by done.
    destruct c as [|c]; [done|]. simpl.
    replace (F + c * F) with (S (F - 1 + c * F)) by lia. simpl.
    apply IH; [lia|].
    replace (S i + (F - 1)) with (i + 1 * F) by lia.
    by rewrite Nat.Div0.mod_add.
  - rewrite bool_decide_eq_false_2.
    + simpl. apply IH; [lia|]. by replace (S i + d) with (i + S d) by lia.
    + intros E. apply (add_mod_not_fixed F i (S d)); [lia|congruence].
Qed.

Lemma slice_axis0 {A} C F (xs : list A) j c :
  j < F -> slice [0%nat] (NDArray [C; F] xs) j !! c = xs !! (c * F + j).
Proof.
  intros Hj. unfold slice; simpl.
  rewrite (select_from_ext _ (fun k => bool_decide (k mod F = j))).
  - rewrite (select_from_stride F j 0 j); [f_equal; lia|done|].
    by apply Nat.mod_small.
  - intros k. unfold in_slice; simpl.
    change (Nat.divmod (k mod (F * 1)) 0 0 0).1 with ((k mod (F * 1)) / 1).
    change (Nat.divmod j 0 0 0).1 with (j / 1).
    rewrite Nat.mul_1_r, !Nat.div_1_r.
    apply bool_decide_ext. split; congruence.
Qed.

Lemma slices_axis0_lookup {A} C F (xs : list A) f :
  f < F ->
  slices [0%nat] (NDArray [C; F] xs) !! f
  = Some (slice [0%nat] (NDArray [C; F] xs) f).
Proof.
  intros Hf. unfold slices; simpl.
  rewrite list_lookup_fmap, lookup_seq_lt by lia. done.
Qed.

(** *** The markers that [view_markers] creates *)

Section ViewMarkersFacts.
Context {View Camera Pose : Type}.
Context (View_new : Camera -> Pose -> float -> View).
Implicit Types (h : gmap positive View) (l : positive).

Local Abbreviation add_views := (add_views View Camera Pose View_new).
Local Abbreviation add_frames := (add_frames View Camera Pose View_new).

Lemma add_views_spec scale pairs h :
  created h (add_views scale pairs h).2 (omap id (add_views scale pairs h).1)
  /\ forall c vp cam,
       pairs !! c = Some (vp, cam) ->
       exists o,
         (add_views scale pairs h).1 !! c = Some o
         /\ match o with
            | Some l =>
                vp.2 = true
                /\ (add_views scale pairs h).2 !! l
                   = Some (View_new cam vp.1 scale)
            | None => vp.2 = false
            end.
Proof.
  revert h; induction pairs as [|[vp cam] pairs IH]; intros h; simpl.
  { split; [|done]. split; [done|]. split; [constructor|].
    intros l Hl. inversion Hl. }
  unfold add_view. destruct (vp.2) eqn:Hv.
  - set (l0 := fresh (dom h)). set (h1 := <[l0 := _]> h).
    assert (Hl0 : h !! l0 = None) by apply not_elem_of_dom, is_fresh.
    assert (H01 : h ⊆ h1) by by apply insert_subseteq.
    destruct (IH h1) as ((Hsub & Hnd & Hfresh) & Hat).
    destruct (add_views scale pairs h1) as [vs h2]; simpl in *.
    repeat split.
    + by etrans.
    + constructor; [|done]. intros Hin. apply Hfresh in Hin as [Hn _].
      subst h1. by rewrite lookup_insert_eq in Hn.
    + apply elem_of_cons in H as [->|Hin]; [done|].
      apply Hfresh in Hin as [Hn _].
      destruct (h !! l) eqn:E; [|done].
      by rewrite (lookup_weaken _ _ _ _ E H01) in Hn.
    + apply elem_of_cons in H as [->|Hin].
      * exists (View_new cam vp.1 scale).
        apply (lookup_weaken h1); [apply lookup_insert_eq|done].
      * by apply Hfresh.
    + intros [|c] vp' cam' Hc; simpl in *.
      * injection Hc as <- <-. eexists; split; [done|]. split; [done|].
        apply (lookup_weaken h1); [apply lookup_insert_eq|done].
      * by apply Hat.
  - destruct (IH h) as ((Hsub & Hnd & Hfresh) & Hat).
    destruct (add_views scale pairs h) as [vs h2]; simpl in *.
    repeat split; try done; try (by apply Hfresh).
    intros [|c] vp' cam' Hc; simpl in *.
    + injection Hc as <- <-. by eexists.
    + by apply Hat.
Qed.

Lemma add_frames_spec scale frames cameras h :
  created h (add_frames scale frames cameras h).2
          (valid_views (add_frames scale frames cameras h).1)
  /\ length (add_frames scale frames cameras h).1 = length frames
  /\ forall f cps c vp cam,
       frames !! f = Some cps -> cps !! c = Some vp ->
       cameras !! c = Some cam ->
       exists row o,
         (add_frames scale frames cameras h).1 !! f = Some row
         /\ row !! c = Some o
         /\ match o with
            | Some l =>
                vp.2 = true
                /\ (add_frames scale frames cameras h).2 !! l
                   = Some (View_new cam vp.1 scale)
            | None => vp.2 = false
            end.
Proof.
  revert h; induction frames as [|cps0 frames IH]; intros h; simpl.
  { split; [|done]. split; [done|]. split; [constructor|].
    intros l Hl. inversion Hl. }
  destruct (add_views_spec scale (zip cps0 cameras) h)
    as ((Hsub1 & Hnd1 & Hfresh1) & Hat1).
  destruct (add_views scale (zip cps0 cameras) h) as [row h1]; simpl in *.
  destruct (IH h1) as ((Hsub2 & Hnd2 & Hfresh2) & Hlen & Hat2).
  destruct (add_frames scale frames cameras h1) as [rows h2]; simpl in *.
  rewrite valid_views_cons. repeat split.
  - by etrans.
  - apply NoDup_app. repeat split; [done| |done].
    intros l Hl1 Hl2. apply Hfresh1 in Hl1 as [_ [v Hv]].
    apply Hfresh2 in Hl2 as [Hn _]. congruence.
  - apply elem_of_app in H as [Hin|Hin]; [by apply Hfresh1|].
    apply Hfresh2 in Hin as [Hn _]. destruct (h !! l) eqn:E; [|done].
    by rewrite (lookup_weaken _ _ _ _ E Hsub1) in Hn.
  - apply elem_of_app in H as [Hin|Hin]; [|by apply Hfresh2].
    apply Hfresh1 in Hin as [_ [v Hv]]. exists v.
    by apply (lookup_weaken h1).
  - by rewrite Hlen.
  - intros [|f] cps c vp cam Hf Hc Hcam; simpl in *.
    + injection Hf as <-.
      destruct (Hat1 c vp cam) as (o & Ho & Hm).
      { rewrite lookup_zip_with, Hc, Hcam. done. }
      exists row, o. repeat split; try done.
      destruct o as [l|]; [|done]. destruct Hm as [Hv Hl]. split; [done|].
      by apply (lookup_weaken h1).
    + by apply (Hat2 f cps c vp cam).
Qed.

(** X15: on a table of shape (cameras, frames), [view_markers] returns
    one row per frame and, in row [f], one entry per camera [c]: a new
    marker, built from camera [c] and the pose of cell (c, f), when that
    pose is valid, and [None] when it is not.  The markers are new objects,
    different from one another, and the markers that existed before are
    left as they were. *)
Theorem view_markers_spec (view_poses : ndarray (Pose * bool))
    (cameras : list Camera) scale h C F :
  shape view_poses = [C; F] ->
  let r := view_markers View Camera Pose View_new view_poses cameras scale h in
  length r.1 = F
  /\ h ⊆ r.2
  /\ NoDup (valid_views r.1)
  /\ (forall l, l ∈ valid_views r.1 -> h !! l = None)
  /\ (forall f c pose valid camera,
        f < F ->
        data view_poses !! (c * F + f) = Some (pose, valid) ->
        cameras !! c = Some camera ->
        exists row o,
          r.1 !! f = Some row
          /\ row !! c = Some o
          /\ match o with
             | Some l =>
                 valid = true /\ r.2 !! l = Some (View_new camera pose scale)
             | None => valid = false
             end).
Proof.
  intros Hsh r. subst r. unfold view_markers.
  destruct (add_frames_spec scale (slices [0%nat] view_poses) cameras h)
    as ((Hsub & Hnd & Hfresh) & Hlen & Hat).
  destruct view_poses as [sh xs]; simpl in Hsh; subst sh.
  repeat split; try done.
  - rewrite Hlen, length_slices. simpl. lia.
  - intros l Hl. by apply Hfresh.
  - intros f c pose valid camera Hf Hc Hcam.
    destruct (Hat f (slice [0%nat] (NDArray [C; F] xs) f) c (pose, valid)
                camera) as (row & o & Hrow & Ho & Hm).
    + by apply slices_axis0_lookup.
    + by rewrite slice_axis0.
    + done.
    + by exists row, o.
Qed.

End ViewMarkersFacts.

(** *** The sample scene *)

Example view_markers_sample :
  (view_markers sample_view nat nat sample_view_new sample_view_poses
     [0; 1]%nat 1%float ∅).1 = sample_views.
Proof. reflexivity. Qed.

Lemma view_markers_spec_witness :
  let r :=
    view_markers sample_view nat nat sample_view_new sample_view_poses
      [0; 1]%nat 1%float ∅ in
  length r.1 = 3
  /\ ∅ ⊆ r.2
  /\ NoDup (valid_views r.1)
  /\ (forall l, l ∈ valid_views r.1 -> (∅ : gmap positive sample_view) !! l = None)
  /\ (forall f c pose valid camera,
        f < 3 ->
        data sample_view_poses !! (c * 3 + f) = Some (pose, valid) ->
        [0; 1]%nat !! c = Some camera ->
        exists row o,
          r.1 !! f = Some row
          /\ row !! c = Some o
          /\ match o with
             | Some l =>
                 valid = true
                 /\ r.2 !! l = Some (sample_view_new camera pose 1%float)
             | None => valid = false
             end).
Proof.
  exact (view_markers_spec sample_view_new sample_view_poses [0; 1]%nat
           1%float ∅ 2 3 eq_refl).
Defined.

Lemma sample_views_NoDup : NoDup (valid_views sample_views).
Proof. by apply (bool_decide_unpack _); vm_compute. Qed.

Lemma MovingCameras_update_spec_witness :
  let sc' :=
    MovingCameras_update sample_view sample_set_color sample_set_scale
      sample_views sample_ui_state sample_scene in
  redraws sc' = S (redraws sample_scene)
  /\ board_visible sc' = board_visible sample_scene
  /\ (forall i fv j l,
        sample_views !! i = Some fv -> fv !! j = Some (Some l) ->
        objs sc' !! l
        = (fun v => sample_set_scale (state_scale sample_ui_state)
                      (sample_set_color (marker_color sample_ui_state i j) v))
          <$> objs sample_scene !! l)
  /\ (forall l, l ∉ valid_views sample_views ->
                objs sc' !! l = objs sample_scene !! l).
Proof.
  exact (MovingCameras_update_spec sample_set_color sample_set_scale
           sample_views sample_ui_state sample_scene sample_views_NoDup).
Defined.

Lemma MovingCameras_enable_disable_witness :
  let on :=
    MovingCameras_enable sample_view sample_set_color sample_set_scale
      sample_show sample_views sample_ui_state sample_scene in
  let off :=
    MovingCameras_disable sample_view sample_show sample_views sample_scene in
  board_visible on = true
  /\ redraws on = S (redraws sample_scene)
  /\ (forall i fv j l,
        sample_views !! i = Some fv -> fv !! j = Some (Some l) ->
        objs on !! l
        = (fun v => sample_set_scale (state_scale sample_ui_state)
                      (sample_set_color (marker_color sample_ui_state i j)
                         (sample_show true v)))
          <$> objs sample_scene !! l)
  /\ board_visible off = false
  /\ redraws off = redraws sample_scene
  /\ (forall l, l ∈ valid_views sample_views ->
                objs off !! l = sample_show false <$> objs sample_scene !! l)
  /\ (forall l, l ∉ valid_views sample_views ->
                objs on !! l = objs sample_scene !! l
                /\ objs off !! l = objs sample_scene !! l).
Proof.
  exact (MovingCameras_enable_disable sample_set_color sample_set_scale
           sample_show sample_views sample_ui_state sample_scene
           sample_views_NoDup).
Defined.

(** With frame 2 and camera 0 selected, marker 4 (frame 2, camera 0)
    turns yellow and marker 5 (frame 2, camera 1) green; marker 1 is
    grey. *)
Example MovingCameras_enable_sample :
  let on :=
    MovingCameras_enable sample_view sample_set_color sample_set_scale
      sample_show sample_views sample_ui_state sample_scene in
  view_color <$> objs on !! 4%positive = Some (1%float, 1%float, 0%float)
  /\ view_color <$> objs on !! 5%positive
     = Some (0.5%float, 1%float, 0%float)
  /\ view_color <$> objs on !! 1%positive
     = Some (0.5%float, 0.5%float, 0.5%float)
  /\ view_pose <$> objs on !! 4%positive = Some 2.
Proof. repeat split; reflexivity. Qed.

(** ** A further property of the Static motion model *)

(** X16: on an instance as [Static(poses)] builds it, [reproject] raises
    [AttributeError] once [tables.expand_views] and
    [tables.transform_points] have returned: the body reads
    [self.cameras], which [__init__] never assigns (its parameter
    [cameras] is not used). *)
Theorem Static_reproject_new_instance_raises {Camera : Type}
    (camera_project : Camera -> pyval Camera -> result (pyval Camera))
    (tables_expand_views tables_transform_points :
       pyval Camera -> pyval Camera -> result (pyval Camera))
    (poses cameras camera_poses world_points detected view_table
       transformed : pyval Camera) :
  tables_expand_views camera_poses poses = Ok view_table ->
  tables_transform_points world_points view_table = Ok transformed ->
  Static_reproject Camera camera_project tables_expand_views
    tables_transform_points (Static_init poses)
    [cameras; camera_poses; world_points; detected]
  = Raise AttributeError.
Proof.
  intros Hv Ht. unfold Static_reproject; simpl. by rewrite Hv; simpl; rewrite Ht.
Qed.

Lemma Static_reproject_new_instance_raises_witness :
  Static_reproject unit (fun _ p => Ok p) (fun _ poses => Ok poses)
    (fun _ _ => Ok sample_transformed) (Static_init PyNone)
    [PyList [PyCam tt]; PyNone; PyNone; sample_detected]
  = Raise AttributeError.
Proof.
  apply (Static_reproject_new_instance_raises (fun _ p => Ok p)
           (fun _ poses => Ok poses) (fun _ _ => Ok sample_transformed)
           PyNone (PyList [PyCam tt]) PyNone PyNone sample_detected
           PyNone sample_transformed); reflexivity.
Defined.

Lemma detection_tables_needs_four_axes_witness :
  (exists t, detection_tables valid_2x2x1x2 = Ok t)
  /\ detection_tables valid_1_0 = Raise AxisError.
Proof.
  split.
  - apply (proj1 (detection_tables_needs_four_axes valid_2x2x1x2)).
    unfold ndim; simpl. lia.
  - apply (proj2 (detection_tables_needs_four_axes valid_1_0)).
    unfold ndim; simpl. lia.
Defined.
